(** * Electric-Motor-Modeling: the discrete-time PID speed loop of [main.py]

    A shallow embedding of the numeric core of [src/main.py]: the helper
    functions (lines 48-151) and the simulation block of [updateGraphs]
    (lines 212-319), followed by the properties of the loop.

    Numbers.  Every numeric value of the script is a Python [float] (an
    [int] such as the seed [0] or the slider value [3000] is converted to
    the same float as soon as it meets one).  The functions are written
    once, over an interface [PyFloat] that lists the operations the script
    uses and assumes no law about them, and are then read in two ways:

    - [Binary64]: IEEE 754 binary64, the arithmetic Python really runs,
      through Rocq's primitive floats.  Every definition computes there.
    - [Ideal]: the real numbers, where rounding is idealised away; the
      algebraic statements that rounding does not break (control law,
      saturation bound) are stated there.  What rounding, overflow or a
      NaN changes (the zero-gain run, the loop count, a speed that stops
      being finite) is stated on [Binary64].

    Exceptions.  A list index out of range, a float division by zero and
    [int()] of a non-finite float raise in Python; the functions return a
    [result], and the theorems show a value when they claim one. *)

From Stdlib Require Import String.
From Stdlib Require Import ZArith List Bool Lia.
From Stdlib Require Import Reals Lra.
From Stdlib Require Import Floats.PrimFloat Floats.SpecFloat Floats.FloatOps.
From Stdlib Require Import Floats.FloatAxioms.
From Stdlib Require Import Numbers.Cyclic.Int63.Uint63.
Import ListNotations.

Set Implicit Arguments.

(** ** Python exceptions as an error monad *)

Inductive PyExc : Set :=
| IndexError
| ZeroDivisionError
| ValueError
| OverflowError.

Inductive result (A : Type) : Type :=
| Ok (a : A)
| Raise (e : PyExc).

Arguments Ok {A} a.
Arguments Raise {A} e.

Definition bind {A B : Type} (c : result A) (k : A -> result B) : result B :=
  match c with
  | Ok a => k a
  | Raise e => Raise e
  end.

Declare Scope py_scope.
Delimit Scope py_scope with py.

Notation "x <- c ;; k" := (bind c (fun x => k))
  (at level 61, c at next level, right associativity) : py_scope.

(** [l[i]] for a non-negative index: [IndexError] past the end. *)
Definition getitem {A : Type} (l : list A) (i : nat) : result A :=
  match nth_error l i with
  | Some a => Ok a
  | None => Raise IndexError
  end.

(** [l.append(a)] *)
Definition append {A : Type} (l : list A) (a : A) : list A := l ++ [a].

(** ** The arithmetic the script uses *)

Class PyFloat (F : Type) : Type := {
  (** an integer literal or value, as the float it is converted to *)
  ofZ : Z -> F;
  add : F -> F -> F;
  sub : F -> F -> F;
  mul : F -> F -> F;
  (** the quotient, for a divisor that is not zero *)
  div : F -> F -> F;
  (** [a < b] *)
  ltb : F -> F -> bool;
  (** [b == 0], the test that makes [/] raise [ZeroDivisionError] *)
  isZero : F -> bool;
  (** [np.pi] *)
  pi : F;
  (** [int(x)]: truncation toward zero *)
  int_ : F -> result Z;
  (** [a <= b] *)
  leb : F -> F -> bool;
  (** [fabs(a)] *)
  abs : F -> F;
  (** neither a NaN nor an infinity *)
  isFinite : F -> bool
}.

Infix "+" := add : py_scope.
Infix "-" := sub : py_scope.
Infix "*" := mul : py_scope.
Infix "<?" := ltb : py_scope.
Infix "<=?" := leb : py_scope.

Section Model.

Context {F : Type} {PF : PyFloat F}.
Local Open Scope py_scope.

(** [a / b] *)
Definition truediv (a b : F) : result F :=
  if isZero b then Raise ZeroDivisionError else Ok (div a b).

(** [sum(l)] on a list of floats, as the interpreter computes it.  The
    script needs Python 3.12 (the replacement field of the f-string of
    lines 285-286 spans two lines), whose built-in [sum] adds the first
    float to the start value [0] and then runs Neumaier's compensated
    summation: [f] is the running sum, [c] collects the rounding error of
    each addition, read off the larger of the two operands, and is added
    back at the end unless it is zero or not finite.  The entries are
    read as floats: when the target is an [int], so are the first two
    errors, which the interpreter adds as integers before it meets the
    first float and starts compensating after it. *)
Fixpoint sumLoop (f c : F) (l : list F) : F * F :=
  match l with
  | [] => (f, c)
  | x :: l' =>
      let t := f + x in
      let c' :=
        if abs x <=? abs f then c + ((f - t) + x) else c + ((x - t) + f) in
      sumLoop t c' l'
  end.

Definition sum (l : list F) : F :=
  match l with
  | [] => ofZ 0
  | x :: l' =>
      let (f, c) := sumLoop (ofZ 0 + x) (ofZ 0) l' in
      if negb (isZero c) && isFinite c then f + c else f
  end.

(** [min(a, b)] keeps [a] unless [b < a]; [max(a, b)] keeps [a] unless
    [b > a]. *)
Definition min (a b : F) : F := if b <? a then b else a.
Definition max (a b : F) : F := if a <? b then b else a.

(** The module-level parameters (lines 13-32); [updateGraphs] rebinds five
    of them, the functions below read them. *)
Record Params : Type := {
  referencedRevolutionsPerMinute : F;
  timeOfSimulation : F;
  timeOfSample : F;
  brakingMoment : F;
  loadMoment : F;
  momentOfInertia : F;
  constantOfElectromagneticMoment : F;
  Kp : F;
  Ki : F;
  Kd : F;
  Umax : F;
  Umin : F
}.

(** The module-level lists (lines 36-43 and 224-230). *)
Record Series : Type := {
  timeOfSimulationList : list F;
  loadMomentList : list F;
  electromagneticMomentList : list F;
  adjustmentErrors : list F;
  voltagesList : list F;
  revolutionsList : list F;
  brakingMomentList : list F
}.

(** Lines 48-58. *)
Definition calculateNumberOfIterations (timeOfSimulation timeOfSample : F)
  : result Z :=
  q <- truediv timeOfSimulation timeOfSample ;;
  n <- int_ q ;;
  Ok (n + 1)%Z.

(** Lines 61-71. *)
Definition calculateAdjustmentError
    (referencedRevolutionsPerMinute currentRevolutionsPerMinute : F) : F :=
  referencedRevolutionsPerMinute - currentRevolutionsPerMinute.

(** Lines 74-100. *)
Definition calculateVoltageOfRegulator (g : Params) (errorList : list F)
    (iteration : nat) : result F :=
  e <- getitem errorList iteration ;;
  let proportional := Kp g * e in
  let integral := Ki g * sum errorList * timeOfSample g in
  derivative <-
    (if (0 <? iteration)%nat
     then e1 <- getitem errorList iteration ;;
          e0 <- getitem errorList (iteration - 1) ;;
          truediv (e1 - e0) (timeOfSample g)
     else Ok (ofZ 0)) ;;
  let derivative := Kd g * derivative in
  let voltage := proportional + integral + derivative in
  Ok voltage.

(** Lines 103-113. *)
Definition calculateElectromagneticMoment (constant currentVoltage : F) : F :=
  constant * currentVoltage.

(** Lines 116-125. *)
Definition calculateNormalizedVoltage (g : Params) (voltgeOfRegulator : F) : F :=
  max (Umin g) (min (Umax g) voltgeOfRegulator).

(** Lines 128-133. *)
Definition convertToAngularVelocity (valueToBeConverted : F) : result F :=
  k <- truediv (ofZ 2 * pi) (ofZ 60) ;;
  Ok (valueToBeConverted * k).

Definition convertToRevolutionsPerMinute (valueToBeConverted : F) : result F :=
  k <- truediv (ofZ 60) (ofZ 2 * pi) ;;
  Ok (valueToBeConverted * k).

(** Lines 136-151. *)
Definition calculateRevolutions (g : Params)
    (latestRevolution latestElectromagneticMoment : F) : result F :=
  omega <- convertToAngularVelocity latestRevolution ;;
  acceleration <-
    truediv (latestElectromagneticMoment - loadMoment g - brakingMoment g)
            (momentOfInertia g) ;;
  let newOmega := omega + timeOfSample g * acceleration in
  convertToRevolutionsPerMinute newOmega.

(** Lines 224-230: the lists as [updateGraphs] re-initialises them. *)
Definition initialSeries (g : Params) : Series := {|
  timeOfSimulationList := [ofZ 0];
  loadMomentList := [ofZ 0];
  electromagneticMomentList := [ofZ 0];
  adjustmentErrors := [referencedRevolutionsPerMinute g];
  voltagesList := [ofZ 0];
  revolutionsList := [ofZ 0];
  brakingMomentList := [brakingMoment g]
|}.

(** Lines 234-255: the body of the loop at index [i].  Each list is read
    where the script reads it: [voltagesList[i]] and
    [electromagneticMomentList[i]] after the append of this sample,
    [revolutionsList[i]] once before and once after it. *)
Definition loopBody (g : Params) (i : nat) (s : Series) : result Series :=
  t <- getitem (timeOfSimulationList s) i ;;
  let timeOfSimulationList' := append (timeOfSimulationList s) (t + timeOfSample g) in
  raw <- calculateVoltageOfRegulator g (adjustmentErrors s) i ;;
  let voltage := calculateNormalizedVoltage g raw in
  let voltagesList' := append (voltagesList s) voltage in
  v <- getitem voltagesList' i ;;
  let electromagneticMoment :=
    calculateElectromagneticMoment (constantOfElectromagneticMoment g) v in
  let electromagneticMomentList' :=
    append (electromagneticMomentList s) electromagneticMoment in
  r <- getitem (revolutionsList s) i ;;
  m <- getitem electromagneticMomentList' i ;;
  revolutions <- calculateRevolutions g r m ;;
  let revolutionsList' := append (revolutionsList s) revolutions in
  r' <- getitem revolutionsList' i ;;
  let adjustmentError :=
    calculateAdjustmentError (referencedRevolutionsPerMinute g) r' in
  Ok {|
    timeOfSimulationList := timeOfSimulationList';
    loadMomentList := append (loadMomentList s) (loadMoment g);
    electromagneticMomentList := electromagneticMomentList';
    adjustmentErrors := append (adjustmentErrors s) adjustmentError;
    voltagesList := voltagesList';
    revolutionsList := revolutionsList';
    brakingMomentList := append (brakingMomentList s) (brakingMoment g)
  |}.

(** [for i in range(start, start + count): body]. *)
Fixpoint forRange (body : nat -> Series -> result Series)
    (start count : nat) (s : Series) : result Series :=
  match count with
  | O => Ok s
  | S count' => s' <- body start s ;; forRange body (S start) count' s'
  end.

(** The lists after the first [k] samples (indices [0 .. k-1]) of a run. *)
Definition seriesAfter (g : Params) (k : nat) : result Series :=
  forRange (loopBody g) 0 k (initialSeries g).

(** [int(timeOfSimulation / timeOfSample)] of line 233, as the number of
    passes [range] makes (none for a negative value). *)
Definition iterationCount (g : Params) : result nat :=
  q <- truediv (timeOfSimulation g) (timeOfSample g) ;;
  n <- int_ q ;;
  Ok (Z.to_nat n).

(** Lines 224-255: re-initialisation and loop. *)
Definition simulation (g : Params) : result Series :=
  n <- iterationCount g ;;
  seriesAfter g n.

(** *** What [updateGraphs] returns: two plotly figures *)

(** A piece of an f-string: literal text or an interpolated value. *)
Local Open Scope string_scope.

Inductive Piece : Type :=
| Text (s : string)
| Value (v : F).

Record Scatter : Type := {
  x : list F;
  y : list F;
  mode : string;
  name : string;
  line : list (string * string)
}.

Record HLine : Type := {
  hline_y : F;
  line_dash : string;
  annotation_text : string
}.

Record Figure : Type := {
  traces : list Scatter;
  hlines : list HLine;
  title : list Piece;
  xaxis_title : string;
  yaxis_title : string
}.

(** Lines 258-289. *)
Definition momentsFigure (g : Params) (s : Series) : Figure := {|
  traces :=
    [ {| x := timeOfSimulationList s; y := loadMomentList s;
         mode := "lines"; name := "Load Moment";
         line := [("color", "blue")] |};
      {| x := timeOfSimulationList s; y := electromagneticMomentList s;
         mode := "lines"; name := "Electromagnetic Moment";
         line := [("color", "red")] |};
      {| x := timeOfSimulationList s; y := brakingMomentList s;
         mode := "lines"; name := "Braking Moment";
         line := [("color", "green")] |} ];
  hlines := [];
  title := [Text "Load, Electromagnetic, and Braking Moment (";
            Value (brakingMoment g); Text ") Over Time"];
  xaxis_title := "Time (s)";
  yaxis_title := "Moment (Nm)"
|}.

(** Lines 292-315. *)
Definition revolutionsFigure (g : Params) (s : Series)
    (previoustimeOfSimulationList previousrevolutionsList : list F) : Figure := {|
  traces :=
    [ {| x := timeOfSimulationList s; y := revolutionsList s;
         mode := "lines"; name := "Revolutions"; line := [] |};
      {| x := previoustimeOfSimulationList; y := previousrevolutionsList;
         mode := "lines"; name := "previousRevolutions";
         line := [("color", "gray"); ("dash", "dash")] |} ];
  hlines := [ {| hline_y := referencedRevolutionsPerMinute g;
                 line_dash := "dot"; annotation_text := "Target RPM" |} ];
  title := [Text "Revolutions Over Time"];
  xaxis_title := "Time (s)";
  yaxis_title := "Revolutions per Minute (RPM)"
|}.

(** The module state a call of [updateGraphs] leaves, with what it
    returns. *)
Record Outcome : Type := {
  params : Params;
  series : Series;
  previousrevolutionsList : list F;
  previoustimeOfSimulationList : list F;
  figures : Figure * Figure
}.

(** Lines 215-219. *)
Definition rebind (g : Params) (newLoadMoment newReferencedRPM newKp newKi newKd : F)
  : Params := {|
  referencedRevolutionsPerMinute := newReferencedRPM;
  timeOfSimulation := timeOfSimulation g;
  timeOfSample := timeOfSample g;
  brakingMoment := brakingMoment g;
  loadMoment := newLoadMoment;
  momentOfInertia := momentOfInertia g;
  constantOfElectromagneticMoment := constantOfElectromagneticMoment g;
  Kp := newKp;
  Ki := newKi;
  Kd := newKd;
  Umax := Umax g;
  Umin := Umin g
|}.

(** Lines 212-319.  [g], [prevTime] and [prevRevolutions] are the module
    state at the call: the parameters and the two [previous...] lists. *)
Definition updateGraphs (g : Params) (prevTime prevRevolutions : list F)
    (newLoadMoment newReferencedRPM newKp newKi newKd : F) : result Outcome :=
  let g' := rebind g newLoadMoment newReferencedRPM newKp newKi newKd in
  s <- simulation g' ;;
  Ok {|
    params := g';
    series := s;
    previousrevolutionsList := revolutionsList s;
    previoustimeOfSimulationList := timeOfSimulationList s;
    figures := (momentsFigure g' s, revolutionsFigure g' s prevTime prevRevolutions)
  |}.

End Model.

Arguments Params F : clear implicits.
Arguments Series F : clear implicits.
Arguments Figure F : clear implicits.
Arguments Outcome F : clear implicits.

Unset Implicit Arguments.

(** ** Binary64: the arithmetic Python runs *)

Module Binary64.

(** [float(z)]; exact below [2^53], rounded to nearest below [2^63]. *)
Definition ofZ (z : Z) : float :=
  match z with
  | Z0 => PrimFloat.zero
  | Zpos _ => PrimFloat.of_uint63 (Uint63.of_Z z)
  | Zneg p => PrimFloat.opp (PrimFloat.of_uint63 (Uint63.of_Z (Zpos p)))
  end.

(** [int(x)]: [ValueError] on a NaN, [OverflowError] on an infinity, the
    value with its fraction dropped otherwise. *)
Definition int_ (x : float) : result Z :=
  match Prim2SF x with
  | S754_zero _ => Ok 0%Z
  | S754_infinity _ => Raise OverflowError
  | S754_nan => Raise ValueError
  | S754_finite s m e =>
      let magnitude :=
        match e with
        | Zneg k => Z.shiftr (Zpos m) (Zpos k)
        | _ => Z.shiftl (Zpos m) e
        end in
      Ok (if s then (- magnitude)%Z else magnitude)
  end.

(** [np.pi], the binary64 number nearest to pi. *)
Definition pi : float := 0x1.921fb54442d18p+1%float.

(** [b == 0]: true of both zeros, false of a NaN. *)
Definition isZero (b : float) : bool := PrimFloat.eqb b PrimFloat.zero.

#[global] Instance binary64 : PyFloat float :=
  @Build_PyFloat float ofZ PrimFloat.add PrimFloat.sub PrimFloat.mul
    PrimFloat.div PrimFloat.ltb isZero pi int_
    PrimFloat.leb PrimFloat.abs PrimFloat.is_finite.

(** The parameters of lines 13-32, as the module defines them. *)
Definition moduleParams : Params float := {|
  referencedRevolutionsPerMinute := 3000;
  timeOfSimulation := 1000;
  timeOfSample := 0x1.999999999999ap-4;
  brakingMoment := 0x1.999999999999ap-3;
  loadMoment := 5;
  momentOfInertia := 0x1.3333333333333p+0;
  constantOfElectromagneticMoment := 0x1.999999999999ap-2;
  Kp := 0x1.cac083126e979p-8;
  Ki := 0x1.3a92a30553261p-13;
  Kd := 0x1.89374bc6a7efap-10;
  Umax := 24;
  Umin := 0
|}%float.

(** The parameters after a call of [updateGraphs] with the initial values
    of the five sliders (lines 161-186): load 1, target 3000, Kp 0.007,
    Ki 0.00013, Kd 0.0015. *)
Definition sliderDefaults : Params float :=
  rebind moduleParams 1%float 3000%float 0x1.cac083126e979p-8%float
    0x1.10a137f38c543p-13%float 0x1.89374bc6a7efap-10%float.

(** A call of [updateGraphs] on the module as loaded (the two
    [previous...] lists are [[0]]), with the sliders' initial values
    except for the load torque, which is [1e308] (the binary64 number
    nearest to it); and the parameters it rebinds. *)
Definition overloadedCall : result (Outcome float) :=
  updateGraphs moduleParams [0%float] [0%float] 0x1.1ccf385ebc8ap+1023%float
    3000%float 0x1.cac083126e979p-8%float 0x1.10a137f38c543p-13%float
    0x1.89374bc6a7efap-10%float.

Definition overloadedParams : Params float :=
  rebind moduleParams 0x1.1ccf385ebc8ap+1023%float
    3000%float 0x1.cac083126e979p-8%float 0x1.10a137f38c543p-13%float
    0x1.89374bc6a7efap-10%float.

(** The sliders' initial values with the three gains at zero, and the
    same with the load torque [1e308]. *)
Definition zeroGains : Params float :=
  rebind moduleParams 1%float 3000%float 0%float 0%float 0%float.


(** The module's parameters with a zero sample period, and with a zero
    moment of inertia. *)
Definition zeroPeriod : Params float := {|
  referencedRevolutionsPerMinute := 3000;
  timeOfSimulation := 1000;
  timeOfSample := 0;
  brakingMoment := 0x1.999999999999ap-3;
  loadMoment := 5;
  momentOfInertia := 0x1.3333333333333p+0;
  constantOfElectromagneticMoment := 0x1.999999999999ap-2;
  Kp := 0x1.cac083126e979p-8;
  Ki := 0x1.3a92a30553261p-13;
  Kd := 0x1.89374bc6a7efap-10;
  Umax := 24;
  Umin := 0
|}%float.

Definition zeroInertia : Params float := {|
  referencedRevolutionsPerMinute := 3000;
  timeOfSimulation := 1000;
  timeOfSample := 0x1.999999999999ap-4;
  brakingMoment := 0x1.999999999999ap-3;
  loadMoment := 5;
  momentOfInertia := 0;
  constantOfElectromagneticMoment := 0x1.999999999999ap-2;
  Kp := 0x1.cac083126e979p-8;
  Ki := 0x1.3a92a30553261p-13;
  Kd := 0x1.89374bc6a7efap-10;
  Umax := 24;
  Umin := 0
|}%float.

(** What the first 30 samples of the run of [overloadedCall] are
    checked for: they complete; the speed list holds finite values at
    indices 0 to 2 and minus infinity at index 3 and at every later index;
    every voltage is finite. *)
Definition overloadedCheck (c : result (Series float)) : bool :=
  match c with
  | Raise _ => false
  | Ok s =>
      Nat.eqb (length (revolutionsList s)) 31
      && forallb PrimFloat.is_finite (firstn 3 (revolutionsList s))
      && forallb (fun v => PrimFloat.eqb v neg_infinity) (skipn 3 (revolutionsList s))
      && forallb PrimFloat.is_finite (voltagesList s)
  end.

End Binary64.

(** ** Ideal: the same operations on real numbers *)

Module Ideal.

Definition ltb (a b : R) : bool := if Rlt_dec a b then true else false.

Definition isZero (b : R) : bool := if Req_dec_T b 0 then true else false.

(** Truncation toward zero: the floor of a non-negative number, minus the
    floor of the opposite of a negative one. *)
Definition trunc (x : R) : Z :=
  if Rlt_dec x 0 then (- Int_part (- x))%Z else Int_part x.

Definition leb (a b : R) : bool := if Rle_dec a b then true else false.

#[global] Instance ideal : PyFloat R :=
  @Build_PyFloat R IZR Rplus Rminus Rmult Rdiv ltb isZero PI
    (fun x => Ok (trunc x)) leb Rabs (fun _ => true).

(** The parameters of lines 13-32, as the module defines them. *)
Definition moduleParams : Params R := {|
  referencedRevolutionsPerMinute := 3000;
  timeOfSimulation := 1000;
  timeOfSample := 0.1;
  brakingMoment := 0.2;
  loadMoment := 5;
  momentOfInertia := 1.2;
  constantOfElectromagneticMoment := 0.4;
  Kp := 0.007;
  Ki := 0.00015;
  Kd := 0.0015;
  Umax := 24;
  Umin := 0
|}%R.

(** The parameters after a call of [updateGraphs] with the initial values
    of the five sliders (lines 161-186). *)
Definition sliderDefaults : Params R :=
  rebind moduleParams 1%R 3000%R 0.007%R 0.00013%R 0.0015%R.

(** The same with the three gains at zero. *)
Definition zeroGains : Params R :=
  rebind moduleParams 1%R 3000%R 0%R 0%R 0%R.

(** The sliders' initial values with the two voltage bounds exchanged, and
    with a simulated time of half a sample period. *)
Definition invertedBounds : Params R := {|
  referencedRevolutionsPerMinute := 3000;
  timeOfSimulation := 1000;
  timeOfSample := 0.1;
  brakingMoment := 0.2;
  loadMoment := 1;
  momentOfInertia := 1.2;
  constantOfElectromagneticMoment := 0.4;
  Kp := 0.007;
  Ki := 0.00013;
  Kd := 0.0015;
  Umax := 0;
  Umin := 24
|}%R.


End Ideal.

(** ** Conditions on a run *)

Section Conditions.

Context {F : Type} {PF : PyFloat F}.
Local Open Scope py_scope.

(** No division of the run has a zero divisor: the sample period and the
    moment of inertia are not zero (nor are the constants [60] and
    [2 * np.pi] of the unit conversions). *)
Definition noZeroDivisor (g : Params F) : bool :=
  negb (isZero (timeOfSample g)) && negb (isZero (momentOfInertia g))
  && negb (isZero (ofZ 60)) && negb (isZero (ofZ 2 * pi)).

(** Every list of [s] has [k] entries. *)
Definition allLength (s : Series F) (k : nat) : Prop :=
  length (timeOfSimulationList s) = k /\
  length (loadMomentList s) = k /\
  length (electromagneticMomentList s) = k /\
  length (adjustmentErrors s) = k /\
  length (voltagesList s) = k /\
  length (revolutionsList s) = k /\
  length (brakingMomentList s) = k.

(** Sample [i] of the run of [g]: the lists before it and after it. *)
Definition sample (g : Params F) (i : nat) (before after : Series F) : Prop :=
  seriesAfter g i = Ok before /\
  loopBody g i before = Ok after /\
  seriesAfter g (S i) = Ok after.

(** Where a mark on the result of [updateGraphs] could stand: the texts
    of the annotations of the two figures, and the names of their
    traces. *)
Definition annotations (o : Outcome F) : list string :=
  map (@annotation_text F) (hlines (fst (figures o)) ++ hlines (snd (figures o))).

Definition traceNames (o : Outcome F) : list string :=
  map (@name F) (traces (fst (figures o)) ++ traces (snd (figures o))).

(** [s'] holds the lists of [s] with entries appended. *)
Definition extends (s s' : Series F) : Prop :=
  (exists l, timeOfSimulationList s' = timeOfSimulationList s ++ l) /\
  (exists l, loadMomentList s' = loadMomentList s ++ l) /\
  (exists l, electromagneticMomentList s' = electromagneticMomentList s ++ l) /\
  (exists l, adjustmentErrors s' = adjustmentErrors s ++ l) /\
  (exists l, voltagesList s' = voltagesList s ++ l) /\
  (exists l, revolutionsList s' = revolutionsList s ++ l) /\
  (exists l, brakingMomentList s' = brakingMomentList s ++ l).

End Conditions.

(** ** The loop, whatever the arithmetic *)

Section Loop.

Context {F : Type} {PF : PyFloat F}.
Local Open Scope py_scope.

Lemma getitem_Ok (A : Type) (l : list A) (i : nat) (a : A) :
  nth_error l i = Some a -> getitem l i = Ok a.
Proof. intros H. unfold getitem. now rewrite H. Qed.

Lemma getitem_Ok_inv (A : Type) (l : list A) (i : nat) (a : A) :
  getitem l i = Ok a -> nth_error l i = Some a.
Proof.
  unfold getitem. destruct (nth_error l i); intros H; inversion H; reflexivity.
Qed.

Lemma nth_error_in_range (A : Type) (l : list A) (i : nat) :
  (i < length l)%nat -> exists a, nth_error l i = Some a.
Proof.
  intros H. destruct (nth_error l i) eqn:E; [now eexists|].
  apply nth_error_None in E. lia.
Qed.

Lemma nth_error_append_old (A : Type) (l : list A) (a b : A) (i : nat) :
  nth_error l i = Some b -> nth_error (append l a) i = Some b.
Proof.
  intros H. unfold append. rewrite nth_error_app1; [assumption|].
  apply nth_error_Some. congruence.
Qed.

Lemma nth_error_append_new (A : Type) (l : list A) (a : A) :
  nth_error (append l a) (length l) = Some a.
Proof.
  unfold append. rewrite nth_error_app2 by lia.
  now rewrite Nat.sub_diag.
Qed.

Lemma length_append (A : Type) (l : list A) (a : A) :
  length (append l a) = S (length l).
Proof. unfold append. rewrite length_app. simpl. lia. Qed.

Lemma noZeroDivisor_inv (g : Params F) :
  noZeroDivisor g = true ->
  isZero (timeOfSample g) = false /\ isZero (momentOfInertia g) = false /\
  isZero (ofZ 60) = false /\ isZero (ofZ 2 * pi) = false.
Proof.
  unfold noZeroDivisor. rewrite !andb_true_iff, !negb_true_iff. tauto.
Qed.

Lemma truediv_Ok (a b : F) : isZero b = false -> truediv a b = Ok (div a b).
Proof. intros H. unfold truediv. now rewrite H. Qed.

(** The control law returns a value at every index inside the history. *)
Lemma calculateVoltageOfRegulator_Ok (g : Params F) (errorList : list F) (i : nat) :
  isZero (timeOfSample g) = false -> (i < length errorList)%nat ->
  exists raw, calculateVoltageOfRegulator g errorList i = Ok raw.
Proof.
  intros HT Hi. unfold calculateVoltageOfRegulator.
  destruct (nth_error_in_range _ errorList _ Hi) as [e He].
  rewrite (getitem_Ok _ _ _ _ He). cbn [bind].
  destruct (0 <? i)%nat eqn:E.
  - assert (Hp : (i - 1 < length errorList)%nat) by lia.
    destruct (nth_error_in_range _ errorList _ Hp) as [e0 He0].
    rewrite (getitem_Ok _ _ _ _ He0). cbn [bind].
    rewrite truediv_Ok by assumption. cbn [bind]. now eexists.
  - cbn [bind]. now eexists.
Qed.

Lemma calculateRevolutions_Ok (g : Params F) (r m : F) :
  noZeroDivisor g = true ->
  calculateRevolutions g r m =
    Ok ((r * div (ofZ 2 * pi) (ofZ 60)
         + timeOfSample g * div (m - loadMoment g - brakingMoment g) (momentOfInertia g))
        * div (ofZ 60) (ofZ 2 * pi)).
Proof.
  intros H. apply noZeroDivisor_inv in H. destruct H as (_ & HJ & H60 & Hpi).
  unfold calculateRevolutions, convertToAngularVelocity, convertToRevolutionsPerMinute.
  now rewrite !truediv_Ok by assumption.
Qed.

(** One pass of the loop on lists of [i + 1] entries: what it reads and
    what it appends. *)
Lemma loopBody_Ok (g : Params F) (i : nat) (s : Series F) :
  noZeroDivisor g = true -> allLength s (S i) ->
  exists t raw v r m revolutions,
    nth_error (timeOfSimulationList s) i = Some t /\
    calculateVoltageOfRegulator g (adjustmentErrors s) i = Ok raw /\
    nth_error (voltagesList s) i = Some v /\
    nth_error (revolutionsList s) i = Some r /\
    nth_error (electromagneticMomentList s) i = Some m /\
    calculateRevolutions g r m = Ok revolutions /\
    loopBody g i s = Ok {|
      timeOfSimulationList := append (timeOfSimulationList s) (t + timeOfSample g);
      loadMomentList := append (loadMomentList s) (loadMoment g);
      electromagneticMomentList :=
        append (electromagneticMomentList s)
          (calculateElectromagneticMoment (constantOfElectromagneticMoment g) v);
      adjustmentErrors :=
        append (adjustmentErrors s)
          (calculateAdjustmentError (referencedRevolutionsPerMinute g) r);
      voltagesList := append (voltagesList s) (calculateNormalizedVoltage g raw);
      revolutionsList := append (revolutionsList s) revolutions;
      brakingMomentList := append (brakingMomentList s) (brakingMoment g)
    |}.
Proof.
  intros Hg (Ht & _ & Hm & He & Hv & Hr & _).
  destruct (noZeroDivisor_inv g Hg) as (HT & _).
  destruct (nth_error_in_range _ (timeOfSimulationList s) i) as [t Et]; [lia|].
  destruct (nth_error_in_range _ (voltagesList s) i) as [v Ev]; [lia|].
  destruct (nth_error_in_range _ (revolutionsList s) i) as [r Er]; [lia|].
  destruct (nth_error_in_range _ (electromagneticMomentList s) i) as [m Em]; [lia|].
  destruct (calculateVoltageOfRegulator_Ok g (adjustmentErrors s) i HT) as [raw Eraw]; [lia|].
  exists t, raw, v, r, m.
  eexists. repeat split; try eassumption.
  - apply calculateRevolutions_Ok; assumption.
  - unfold loopBody.
    rewrite (getitem_Ok _ _ _ _ Et). cbn [bind].
    rewrite Eraw. cbn [bind].
    erewrite getitem_Ok by (apply nth_error_append_old; exact Ev). cbn [bind].
    rewrite (getitem_Ok _ _ _ _ Er). cbn [bind].
    erewrite getitem_Ok by (apply nth_error_append_old; exact Em). cbn [bind].
    rewrite calculateRevolutions_Ok by assumption. cbn [bind].
    erewrite getitem_Ok by (apply nth_error_append_old; exact Er). cbn [bind].
    reflexivity.
Qed.

Lemma forRange_last (body : nat -> Series F -> result (Series F))
    (count start : nat) (s : Series F) :
  forRange body start (S count) s =
  (s' <- forRange body start count s ;; body (start + count)%nat s').
Proof.
  revert start s. induction count as [|count IH]; intros start s.
  - cbn [forRange bind]. rewrite Nat.add_0_r. now destruct (body start s).
  - change (forRange body start (S (S count)) s)
      with (s' <- body start s ;; forRange body (S start) (S count) s').
    destruct (body start s) as [s1|e] eqn:E.
    + cbn [bind]. rewrite IH. cbn [forRange]. rewrite E. cbn [bind].
      now rewrite Nat.add_succ_r.
    + cbn [forRange bind]. rewrite E. reflexivity.
Qed.

Lemma seriesAfter_S (g : Params F) (k : nat) :
  seriesAfter g (S k) = (s <- seriesAfter g k ;; loopBody g k s).
Proof. unfold seriesAfter. now rewrite forRange_last. Qed.

Lemma allLength_initial (g : Params F) : allLength (initialSeries g) 1.
Proof. repeat split. Qed.

Lemma loopBody_allLength (g : Params F) (i : nat) (s s' : Series F) :
  noZeroDivisor g = true -> allLength s (S i) -> loopBody g i s = Ok s' ->
  allLength s' (S (S i)).
Proof.
  intros Hg Hs E.
  destruct (loopBody_Ok g _ _ Hg Hs) as (t & raw & v & r & m & rev & _ & _ & _ & _ & _ & _ & E').
  rewrite E' in E. injection E as <-.
  destruct Hs as (? & ? & ? & ? & ? & ? & ?).
  unfold allLength; cbn; rewrite !length_append. repeat split; congruence.
Qed.

Lemma loopBody_extends (g : Params F) (i : nat) (s s' : Series F) :
  noZeroDivisor g = true -> allLength s (S i) -> loopBody g i s = Ok s' ->
  extends s s'.
Proof.
  intros Hg Hs E.
  destruct (loopBody_Ok g _ _ Hg Hs) as (t & raw & v & r & m & rev & _ & _ & _ & _ & _ & _ & E').
  rewrite E' in E. injection E as <-.
  unfold extends, append; cbn. repeat split; eexists; reflexivity.
Qed.

Lemma extends_refl (s : Series F) : extends s s.
Proof. unfold extends. repeat split; exists []; now rewrite app_nil_r. Qed.

Lemma extends_trans (s1 s2 s3 : Series F) :
  extends s1 s2 -> extends s2 s3 -> extends s1 s3.
Proof.
  intros (a1 & a2 & a3 & a4 & a5 & a6 & a7) (b1 & b2 & b3 & b4 & b5 & b6 & b7).
  unfold extends.
  repeat split;
    match goal with
    | H1 : exists l, ?f s2 = ?f s1 ++ l, H2 : exists l, ?f s3 = ?f s2 ++ l
      |- exists l, ?f s3 = ?f s1 ++ l =>
        destruct H1 as [l1 E1]; destruct H2 as [l2 E2]; exists (l1 ++ l2);
        rewrite E2, E1, app_assoc; reflexivity
    end.
Qed.

Lemma nth_error_extended (A : Type) (l l' : list A) (i : nat) (a : A) :
  (exists r, l' = l ++ r) -> nth_error l i = Some a -> nth_error l' i = Some a.
Proof.
  intros [r ->] H. rewrite nth_error_app1; [assumption|].
  apply nth_error_Some. congruence.
Qed.

(** With no zero divisor the first [k] samples complete, and leave
    [k + 1] entries in every list. *)
Lemma seriesAfter_Ok (g : Params F) (k : nat) :
  noZeroDivisor g = true ->
  exists s, seriesAfter g k = Ok s /\ allLength s (S k).
Proof.
  intros Hg. induction k as [|k (s & E & Hs)].
  - exists (initialSeries g). split; [reflexivity | apply allLength_initial].
  - destruct (loopBody_Ok g _ _ Hg Hs) as (t & raw & v & r & m & rev & _ & _ & _ & _ & _ & _ & E').
    eexists. split.
    + rewrite seriesAfter_S, E. cbn [bind]. exact E'.
    + eapply loopBody_allLength; eassumption.
Qed.

Lemma sample_exists (g : Params F) (i : nat) :
  noZeroDivisor g = true ->
  exists before after,
    sample g i before after /\ allLength before (S i) /\ allLength after (S (S i)).
Proof.
  intros Hg.
  destruct (seriesAfter_Ok g i Hg) as (before & Eb & Hb).
  destruct (seriesAfter_Ok g (S i) Hg) as (after & Ea & Ha).
  exists before, after. split; [|split; assumption].
  split; [assumption|]. split; [|assumption].
  rewrite seriesAfter_S, Eb in Ea. exact Ea.
Qed.

(** Later samples only append: the lists after [k] samples are kept at the
    front of the lists after [k + d] samples. *)
Lemma seriesAfter_extends (g : Params F) (k d : nat) (s s' : Series F) :
  noZeroDivisor g = true ->
  seriesAfter g k = Ok s -> seriesAfter g (k + d) = Ok s' -> extends s s'.
Proof.
  intros Hg Es. revert s'. induction d as [|d IH]; intros s' Es'.
  - rewrite Nat.add_0_r in Es'. rewrite Es in Es'. injection Es' as <-.
    apply extends_refl.
  - rewrite Nat.add_succ_r, seriesAfter_S in Es'.
    destruct (seriesAfter_Ok g (k + d)%nat Hg) as (s1 & E1 & H1).
    rewrite E1 in Es'. cbn [bind] in Es'.
    eapply extends_trans; [apply IH; exact E1|].
    eapply loopBody_extends; eassumption.
Qed.

Lemma simulation_seriesAfter (g : Params F) (n : nat) :
  iterationCount g = Ok n -> simulation g = seriesAfter g n.
Proof. intros H. unfold simulation. now rewrite H. Qed.

(** A run whose iteration count is [n] completes, with [n + 1] entries in
    every list. *)
Lemma simulation_Ok (g : Params F) (n : nat) :
  noZeroDivisor g = true -> iterationCount g = Ok n ->
  exists s, simulation g = Ok s /\ allLength s (S n).
Proof.
  intros Hg Hn. rewrite (simulation_seriesAfter g n Hn). now apply seriesAfter_Ok.
Qed.

(** Sample [i] of a completed run, and the final lists that extend it. *)
Lemma simulation_sample (g : Params F) (n i : nat) (s : Series F) :
  noZeroDivisor g = true -> iterationCount g = Ok n -> simulation g = Ok s ->
  (i < n)%nat ->
  exists before after,
    sample g i before after /\ allLength before (S i) /\ extends after s.
Proof.
  intros Hg Hn Hs Hi.
  destruct (sample_exists g i Hg) as (before & after & Hsm & Hb & _).
  exists before, after. split; [assumption|]. split; [assumption|].
  rewrite (simulation_seriesAfter g n Hn) in Hs.
  destruct Hsm as (_ & _ & Ea).
  apply (seriesAfter_extends g (S i) (n - S i) after s Hg Ea).
  replace (S i + (n - S i))%nat with n by lia. exact Hs.
Qed.

End Loop.

(** ** Samples of a run *)

Section Samples.

Context {F : Type} {PF : PyFloat F}.
Local Open Scope py_scope.

(** What sample [i] reads from the lists before it and appends to them. *)
Lemma sample_inv (g : Params F) (i : nat) (before after : Series F) :
  noZeroDivisor g = true -> sample g i before after ->
  allLength before (S i) /\
  exists t raw v r m revolutions,
    nth_error (timeOfSimulationList before) i = Some t /\
    calculateVoltageOfRegulator g (adjustmentErrors before) i = Ok raw /\
    nth_error (voltagesList before) i = Some v /\
    nth_error (revolutionsList before) i = Some r /\
    nth_error (electromagneticMomentList before) i = Some m /\
    calculateRevolutions g r m = Ok revolutions /\
    after = {|
      timeOfSimulationList := append (timeOfSimulationList before) (t + timeOfSample g);
      loadMomentList := append (loadMomentList before) (loadMoment g);
      electromagneticMomentList :=
        append (electromagneticMomentList before)
          (calculateElectromagneticMoment (constantOfElectromagneticMoment g) v);
      adjustmentErrors :=
        append (adjustmentErrors before)
          (calculateAdjustmentError (referencedRevolutionsPerMinute g) r);
      voltagesList := append (voltagesList before) (calculateNormalizedVoltage g raw);
      revolutionsList := append (revolutionsList before) revolutions;
      brakingMomentList := append (brakingMomentList before) (brakingMoment g)
    |}.
Proof.
  intros Hg (Eb & El & _).
  destruct (seriesAfter_Ok g i Hg) as (s0 & E0 & H0).
  rewrite Eb in E0. injection E0 as <-. split; [assumption|].
  destruct (loopBody_Ok g _ _ Hg H0)
    as (t & raw & v & r & m & rev & Ht & Hraw & Hv & Hr & Hm & Hrev & E).
  rewrite E in El. injection El as <-.
  exists t, raw, v, r, m, rev. repeat split; assumption.
Qed.

(** The entry a sample appends sits at index [i + 1], for good. *)
Lemma appended_entry (A : Type) (l l' : list A) (a : A) (i : nat) :
  length l = S i -> (exists r, l' = append l a ++ r) ->
  nth_error l' (S i) = Some a.
Proof.
  intros Hl Hext. eapply nth_error_extended; [exact Hext|].
  rewrite <- Hl. apply nth_error_append_new.
Qed.

(** The load-torque list is the seed [0.0] followed by the load torque
    once per sample; the braking-torque list is the braking torque
    throughout. *)
Lemma seriesAfter_display_lists (g : Params F) (k : nat) (s : Series F) :
  noZeroDivisor g = true -> seriesAfter g k = Ok s ->
  loadMomentList s = ofZ 0 :: repeat (loadMoment g) k /\
  brakingMomentList s = repeat (brakingMoment g) (S k).
Proof.
  intros Hg. revert s. induction k as [|k IH]; intros s E.
  - injection E as <-. split; reflexivity.
  - destruct (sample_exists g k Hg) as (before & after & Hsm & _ & _).
    assert (after = s) as ->.
    { destruct Hsm as (_ & _ & Ea). rewrite Ea in E. now injection E. }
    destruct (IH before) as (Hl & Hb); [apply Hsm|].
    destruct (sample_inv g k before s Hg Hsm)
      as (_ & t & raw & v & r & m & rev & _ & _ & _ & _ & _ & _ & ->).
    cbn. rewrite Hl, Hb. unfold append. split.
    + cbn. f_equal. now rewrite <- repeat_cons.
    + change (brakingMoment g :: repeat (brakingMoment g) k)
        with (repeat (brakingMoment g) (S k)).
      now rewrite <- repeat_cons.
Qed.

(** C1 (one-step actuator lag).  In a run of [n] samples, sample [i]
    appends to the torque list the gain constant times the entry that the
    voltage list already holds at index [i], which is the seed [0.0] for
    [i = 0] and the saturated voltage of sample [i - 1] otherwise; the
    voltage computed during sample [i] is appended at index [i + 1] and is
    not the one used. *)
Theorem actuator_one_step_lag (g : Params F) (n : nat) :
  noZeroDivisor g = true -> iterationCount g = Ok n ->
  exists s, simulation g = Ok s /\
    forall i, (i < n)%nat ->
    exists before after raw stored,
      sample g i before after /\
      calculateVoltageOfRegulator g (adjustmentErrors before) i = Ok raw /\
      voltagesList after =
        append (voltagesList before) (calculateNormalizedVoltage g raw) /\
      nth_error (voltagesList before) i = Some stored /\
      electromagneticMomentList after =
        append (electromagneticMomentList before)
          (constantOfElectromagneticMoment g * stored) /\
      nth_error (electromagneticMomentList s) (S i) =
        Some (constantOfElectromagneticMoment g * stored) /\
      match i with
      | O => stored = ofZ 0
      | S j =>
          exists before' raw',
            seriesAfter g j = Ok before' /\
            calculateVoltageOfRegulator g (adjustmentErrors before') j = Ok raw' /\
            stored = calculateNormalizedVoltage g raw'
      end.
Proof.
  intros Hg Hn.
  destruct (simulation_Ok g n Hg Hn) as (s & Hs & _).
  exists s. split; [assumption|]. intros i Hi.
  destruct (simulation_sample g n i s Hg Hn Hs Hi) as (before & after & Hsm & Hb & Hext).
  destruct (sample_inv g i before after Hg Hsm)
    as (_ & t & raw & v & r & m & rev & _ & Hraw & Hv & _ & _ & _ & Ea).
  exists before, after, raw, v.
  split; [assumption|]. split; [assumption|].
  split; [now rewrite Ea|]. split; [assumption|].
  split; [now rewrite Ea|]. split.
  - destruct Hext as (_ & _ & Hm & _). rewrite Ea in Hm. cbn in Hm.
    eapply appended_entry; [|exact Hm]. apply Hb.
  - destruct i as [|j].
    + destruct Hsm as (E0 & _). injection E0 as <-. cbn in Hv. congruence.
    + destruct (sample_exists g j Hg) as (before' & mid & Hsm' & _ & _).
      destruct (sample_inv g j before' mid Hg Hsm')
        as (Hb' & t' & raw' & v' & r' & m' & rev' & _ & Hraw' & _ & _ & _ & _ & Em).
      assert (mid = before) as Heq.
      { destruct Hsm' as (_ & _ & E1). destruct Hsm as (E2 & _).
        rewrite E1 in E2. now injection E2. }
      exists before', raw'. split; [apply Hsm'|]. split; [assumption|].
      rewrite <- Heq, Em in Hv. cbn [voltagesList] in Hv.
      destruct Hb' as (_ & _ & _ & _ & Hlen & _).
      rewrite <- Hlen, nth_error_append_new in Hv. congruence.
Qed.

(** C3, as the code has it.  In a run of [n] samples, the error appended
    by sample [i], entry [i + 1] of the error list, is the target speed
    minus entry [i] of the speed list: the entry stored before sample [i]
    appended its own speed (the seed [0] for [i = 0], the speed of sample
    [i - 1] otherwise).  The speed computed during sample [i] is entry
    [i + 1] of the speed list. *)
Theorem error_from_stored_speed (g : Params F) (n : nat) :
  noZeroDivisor g = true -> iterationCount g = Ok n ->
  exists s, simulation g = Ok s /\
    nth_error (adjustmentErrors s) 0 = Some (referencedRevolutionsPerMinute g) /\
    nth_error (revolutionsList s) 0 = Some (ofZ 0) /\
    forall i, (i < n)%nat ->
    exists before after stored m revolutions,
      sample g i before after /\
      nth_error (revolutionsList before) i = Some stored /\
      nth_error (electromagneticMomentList before) i = Some m /\
      calculateRevolutions g stored m = Ok revolutions /\
      revolutionsList after = append (revolutionsList before) revolutions /\
      nth_error (revolutionsList s) i = Some stored /\
      nth_error (revolutionsList s) (S i) = Some revolutions /\
      nth_error (adjustmentErrors s) (S i) =
        Some (calculateAdjustmentError (referencedRevolutionsPerMinute g) stored).
Proof.
  intros Hg Hn.
  destruct (simulation_Ok g n Hg Hn) as (s & Hs & _).
  exists s. split; [assumption|].
  assert (H0 : extends (initialSeries g) s).
  { apply (seriesAfter_extends g 0 n); [assumption|reflexivity|].
    rewrite <- Hs. symmetry. exact (simulation_seriesAfter g n Hn). }
  split; [|split].
  - destruct H0 as (_ & _ & _ & He & _).
    eapply nth_error_extended; [exact He|reflexivity].
  - destruct H0 as (_ & _ & _ & _ & _ & Hr & _).
    eapply nth_error_extended; [exact Hr|reflexivity].
  - intros i Hi.
    destruct (simulation_sample g n i s Hg Hn Hs Hi) as (before & after & Hsm & Hb & Hext).
    destruct (sample_inv g i before after Hg Hsm)
      as (_ & t & raw & v & r & m & rev & _ & _ & _ & Hr & Hm & Hrev & Ea).
    exists before, after, r, m, rev.
    split; [assumption|]. split; [assumption|]. split; [assumption|].
    split; [assumption|]. split; [now rewrite Ea|].
    destruct Hext as (_ & _ & _ & He & _ & Hrl & _). rewrite Ea in He, Hrl.
    cbn in He, Hrl. split; [|split].
    + eapply nth_error_extended; [exact Hrl|].
      now apply nth_error_append_old.
    + eapply appended_entry; [|exact Hrl]. apply Hb.
    + eapply appended_entry; [|exact He]. apply Hb.
Qed.

(** C9, as the code has it.  In a run of [n] samples the load-torque list
    starts with the seed [0.0] and holds the load torque at every index
    from [1] to [n]; the braking-torque list holds the braking torque at
    every index from [0] to [n]. *)
Theorem display_series_values (g : Params F) (n : nat) :
  noZeroDivisor g = true -> iterationCount g = Ok n ->
  exists s, simulation g = Ok s /\
    loadMomentList s = ofZ 0 :: repeat (loadMoment g) n /\
    brakingMomentList s = repeat (brakingMoment g) (S n) /\
    nth_error (loadMomentList s) 0 = Some (ofZ 0) /\
    (forall i, (1 <= i <= n)%nat ->
       nth_error (loadMomentList s) i = Some (loadMoment g)) /\
    (forall i, (i <= n)%nat ->
       nth_error (brakingMomentList s) i = Some (brakingMoment g)).
Proof.
  intros Hg Hn.
  destruct (simulation_Ok g n Hg Hn) as (s & Hs & _).
  exists s. split; [assumption|].
  rewrite (simulation_seriesAfter g n Hn) in Hs.
  destruct (seriesAfter_display_lists g n s Hg Hs) as (Hl & Hb).
  rewrite Hl, Hb. split; [reflexivity|]. split; [reflexivity|].
  split; [reflexivity|]. split.
  - intros [|i] Hi; [lia|]. cbn [nth_error].
    apply nth_error_repeat. lia.
  - intros i Hi. apply nth_error_repeat. lia.
Qed.

End Samples.

(** ** The run with the sliders' initial values, in binary64 *)

Section FirstSamples.

Context {F : Type} {PF : PyFloat F}.

(** The lists after the first [k] samples are the front of the final
    lists of a run of [n >= k] samples. *)
Lemma simulation_first_samples (g : Params F) (n k : nat) (sk : Series F) :
  noZeroDivisor g = true -> iterationCount g = Ok n -> (k <= n)%nat ->
  seriesAfter g k = Ok sk ->
  exists s, simulation g = Ok s /\ allLength s (S n) /\ extends sk s.
Proof.
  intros Hg Hn Hk Ek.
  destruct (simulation_Ok g n Hg Hn) as (s & Hs & Hlen).
  exists s. split; [assumption|]. split; [assumption|].
  apply (seriesAfter_extends g k (n - k) sk s Hg Ek).
  replace (k + (n - k))%nat with n by lia.
  rewrite <- Hs. symmetry. exact (simulation_seriesAfter g n Hn).
Qed.

End FirstSamples.

(** The constants of [Binary64.moduleParams], [Binary64.sliderDefaults]
    and [Binary64.overloadedParams] are the binary64 numbers that Python
    reads from the decimal literals of the script. *)
Lemma binary64_literals :
  (0.1 = 0x1.999999999999ap-4 /\ 0.2 = 0x1.999999999999ap-3 /\
   1.2 = 0x1.3333333333333p+0 /\ 0.4 = 0x1.999999999999ap-2 /\
   0.007 = 0x1.cac083126e979p-8 /\ 0.00015 = 0x1.3a92a30553261p-13 /\
   0.00013 = 0x1.10a137f38c543p-13 /\ 0.0015 = 0x1.89374bc6a7efap-10 /\
   1e308 = 0x1.1ccf385ebc8ap+1023 /\ 21.039 = 0x1.509fbe76c8b44p+4)%float.
Proof. repeat split. Qed.

Lemma binary64_sliderDefaults_noZeroDivisor :
  noZeroDivisor Binary64.sliderDefaults = true.
Proof. vm_compute. reflexivity. Qed.

(** [int(1000 / 0.1)] is [10000] in binary64. *)
Lemma binary64_sliderDefaults_iterationCount :
  iterationCount Binary64.sliderDefaults = Ok (Z.to_nat 10000).
Proof. vm_compute. reflexivity. Qed.

Lemma actuator_one_step_lag_witness :
  noZeroDivisor Binary64.sliderDefaults = true /\
  iterationCount Binary64.sliderDefaults = Ok (Z.to_nat 10000) /\
  exists s, simulation Binary64.sliderDefaults = Ok s /\
    nth_error (electromagneticMomentList s) 1 =
      Some (PrimFloat.mul (constantOfElectromagneticMoment Binary64.sliderDefaults)
                          PrimFloat.zero).
Proof.
  split; [exact binary64_sliderDefaults_noZeroDivisor|].
  split; [exact binary64_sliderDefaults_iterationCount|].
  destruct (actuator_one_step_lag Binary64.sliderDefaults (Z.to_nat 10000)
              binary64_sliderDefaults_noZeroDivisor
              binary64_sliderDefaults_iterationCount) as (s & Hs & H).
  exists s. split; [exact Hs|].
  destruct (H 0%nat ltac:(lia)) as (b & a & raw & stored & _ & _ & _ & _ & _ & Hm & H0).
  cbn in H0. rewrite H0 in Hm. exact Hm.
Defined.

Lemma error_from_stored_speed_witness :
  noZeroDivisor Binary64.sliderDefaults = true /\
  iterationCount Binary64.sliderDefaults = Ok (Z.to_nat 10000) /\
  exists s, simulation Binary64.sliderDefaults = Ok s /\
    nth_error (adjustmentErrors s) 1 =
      Some (PrimFloat.sub 3000%float PrimFloat.zero).
Proof.
  split; [exact binary64_sliderDefaults_noZeroDivisor|].
  split; [exact binary64_sliderDefaults_iterationCount|].
  destruct (error_from_stored_speed Binary64.sliderDefaults (Z.to_nat 10000)
              binary64_sliderDefaults_noZeroDivisor
              binary64_sliderDefaults_iterationCount) as (s & Hs & _ & H0 & H).
  exists s. split; [exact Hs|].
  destruct (H 0%nat ltac:(lia)) as (b & a & stored & m & rev & _ & _ & _ & _ & _ & Hr & _ & He).
  rewrite H0 in Hr. injection Hr as <-. exact He.
Defined.

(** The lists after sample 0 of the run with the sliders' initial
    values: the voltage is the binary64 number nearest to 21.039, the
    torque is [0.4 * 0], the speed is -0.95492965855137213. *)
Lemma binary64_sample0 :
  exists s1,
    seriesAfter Binary64.sliderDefaults 1 = Ok s1 /\
    voltagesList s1 = [0; 0x1.509fbe76c8b44p+4]%float /\
    electromagneticMomentList s1 = [0; 0]%float /\
    revolutionsList s1 = [0; -0x1.e8ec8a4aeacc5p-1]%float /\
    adjustmentErrors s1 = [3000; 3000]%float /\
    loadMomentList s1 = [0; 1]%float.
Proof.
  eexists. split; [vm_compute; reflexivity|].
  cbn [voltagesList electromagneticMomentList revolutionsList adjustmentErrors
       loadMomentList].
  repeat split.
Qed.

(** The final lists of that run start with the lists after sample 0. *)
Lemma binary64_run_starts_with_sample0 :
  exists s,
    simulation Binary64.sliderDefaults = Ok s /\
    allLength s (S (Z.to_nat 10000)) /\
    nth_error (voltagesList s) 1 = Some 0x1.509fbe76c8b44p+4%float /\
    nth_error (electromagneticMomentList s) 1 = Some 0%float /\
    nth_error (revolutionsList s) 0 = Some 0%float /\
    nth_error (revolutionsList s) 1 = Some (-0x1.e8ec8a4aeacc5p-1)%float /\
    nth_error (adjustmentErrors s) 1 = Some 3000%float /\
    nth_error (loadMomentList s) 0 = Some 0%float.
Proof.
  destruct binary64_sample0 as (s1 & E1 & Hv & Hm & Hr & He & Hl).
  destruct (simulation_first_samples Binary64.sliderDefaults (Z.to_nat 10000) 1 s1
              binary64_sliderDefaults_noZeroDivisor
              binary64_sliderDefaults_iterationCount ltac:(lia) E1)
    as (s & Hs & Hlen & Hext).
  destruct Hext as (_ & Hle & Hme & Hee & Hve & Hre & _).
  exists s. split; [assumption|]. split; [assumption|].
  repeat split.
  - eapply nth_error_extended; [exact Hve|]. now rewrite Hv.
  - eapply nth_error_extended; [exact Hme|]. now rewrite Hm.
  - eapply nth_error_extended; [exact Hre|]. now rewrite Hr.
  - eapply nth_error_extended; [exact Hre|]. now rewrite Hr.
  - eapply nth_error_extended; [exact Hee|]. now rewrite He.
  - eapply nth_error_extended; [exact Hle|]. now rewrite Hl.
Qed.

(** In that run the torque appended by sample 0 is [0.4 * 0], from the
    seed, while the voltage computed by sample 0 is 21.039. *)
Lemma binary64_sample0_torque_lags :
  exists s,
    simulation Binary64.sliderDefaults = Ok s /\
    nth_error (voltagesList s) 1 = Some 0x1.509fbe76c8b44p+4%float /\
    nth_error (electromagneticMomentList s) 1 = Some 0%float /\
    calculateElectromagneticMoment
      (constantOfElectromagneticMoment Binary64.sliderDefaults)
      0x1.509fbe76c8b44p+4%float = 0x1.0d4c985f06f6ap+3%float.
Proof.
  destruct binary64_run_starts_with_sample0 as (s & Hs & _ & Hv & Hm & _).
  exists s. split; [exact Hs|]. split; [exact Hv|]. split; [exact Hm|].
  vm_compute. reflexivity.
Qed.

Lemma Some_eq_inv (A : Type) (a b : A) : Some a = Some b -> a = b.
Proof. intros H. now injection H. Qed.

(** Two floats that the IEEE comparison [==] tells apart are different. *)
Lemma float_eqb_false_neq (a b : float) :
  PrimFloat.eqb a a = true -> PrimFloat.eqb a b = false -> a <> b.
Proof. intros Ha Hab E. rewrite <- E, Ha in Hab. discriminate. Qed.

(** In the run with the sliders' initial values, sample 0 stores the
    speed it computes, [v = -0.9549...], at index 1 of the speed list,
    and the error it appends at index 1 is [3000 - 0 = 3000], which is not
    [3000 - v]. *)
Lemma error_update_counterexample :
  exists s v,
    simulation Binary64.sliderDefaults = Ok s /\
    nth_error (revolutionsList s) 1 = Some v /\
    nth_error (adjustmentErrors s) 1 = Some 3000%float /\
    nth_error (adjustmentErrors s) 1 <>
      Some (calculateAdjustmentError
              (referencedRevolutionsPerMinute Binary64.sliderDefaults) v).
Proof.
  destruct binary64_run_starts_with_sample0
    as (s & Hs & _ & _ & _ & _ & Hr & He & _).
  exists s, (-0x1.e8ec8a4aeacc5p-1)%float.
  split; [assumption|]. split; [assumption|]. split; [assumption|].
  rewrite He. intros H. apply Some_eq_inv in H. revert H.
  apply float_eqb_false_neq; vm_compute; reflexivity.
Qed.

Lemma display_series_values_witness :
  noZeroDivisor Binary64.sliderDefaults = true /\
  iterationCount Binary64.sliderDefaults = Ok (Z.to_nat 10000) /\
  exists s, simulation Binary64.sliderDefaults = Ok s /\
    nth_error (loadMomentList s) 1 = Some 1%float /\
    nth_error (brakingMomentList s) 0 = Some 0x1.999999999999ap-3%float.
Proof.
  split; [exact binary64_sliderDefaults_noZeroDivisor|].
  split; [exact binary64_sliderDefaults_iterationCount|].
  destruct (display_series_values Binary64.sliderDefaults (Z.to_nat 10000)
              binary64_sliderDefaults_noZeroDivisor
              binary64_sliderDefaults_iterationCount) as (s & Hs & _ & _ & _ & Hl & Hb).
  exists s. split; [exact Hs|]. split.
  - apply (Hl 1%nat). lia.
  - apply (Hb 0%nat). lia.
Defined.

(** In the run with the sliders' initial values the load torque is [1],
    and entry [0] of the load-torque list is the seed [0.0]. *)
Lemma load_series_seed_counterexample :
  exists s,
    simulation Binary64.sliderDefaults = Ok s /\
    loadMoment Binary64.sliderDefaults = 1%float /\
    nth_error (loadMomentList s) 0 = Some 0%float /\
    nth_error (loadMomentList s) 0 <> Some (loadMoment Binary64.sliderDefaults).
Proof.
  destruct binary64_run_starts_with_sample0
    as (s & Hs & _ & _ & _ & _ & _ & _ & Hl).
  exists s. split; [assumption|]. split; [reflexivity|]. split; [assumption|].
  rewrite Hl. intros H. apply Some_eq_inv in H. revert H.
  apply float_eqb_false_neq; vm_compute; reflexivity.
Qed.

(** ** The recurrence on the final lists *)

Section Recurrence.

Context {F : Type} {PF : PyFloat F}.
Local Open Scope py_scope.

(** The seeds stay at index 0 of the final lists. *)
Lemma simulation_seeds (g : Params F) (n : nat) (s : Series F) :
  noZeroDivisor g = true -> iterationCount g = Ok n -> simulation g = Ok s ->
  nth_error (timeOfSimulationList s) 0 = Some (ofZ 0) /\
  nth_error (electromagneticMomentList s) 0 = Some (ofZ 0) /\
  nth_error (adjustmentErrors s) 0 = Some (referencedRevolutionsPerMinute g) /\
  nth_error (voltagesList s) 0 = Some (ofZ 0) /\
  nth_error (revolutionsList s) 0 = Some (ofZ 0).
Proof.
  intros Hg Hn Hs.
  assert (H0 : extends (initialSeries g) s).
  { apply (seriesAfter_extends g 0 n); [assumption|reflexivity|].
    rewrite <- Hs. symmetry. exact (simulation_seriesAfter g n Hn). }
  destruct H0 as (Ht & _ & Hm & He & Hv & Hr & _).
  repeat split; (eapply nth_error_extended; [eassumption|reflexivity]).
Qed.

(** Entry [i + 1] of each final list, from the entries at index [i] and
    the error list as it stands before sample [i]. *)
Lemma simulation_entries (g : Params F) (n : nat) (s : Series F) (i : nat) :
  noZeroDivisor g = true -> iterationCount g = Ok n -> simulation g = Ok s ->
  (i < n)%nat ->
  exists before t raw v r m revolutions,
    seriesAfter g i = Ok before /\
    length (adjustmentErrors before) = S i /\
    extends before s /\
    nth_error (timeOfSimulationList s) i = Some t /\
    calculateVoltageOfRegulator g (adjustmentErrors before) i = Ok raw /\
    nth_error (voltagesList s) i = Some v /\
    nth_error (revolutionsList s) i = Some r /\
    nth_error (electromagneticMomentList s) i = Some m /\
    calculateRevolutions g r m = Ok revolutions /\
    nth_error (timeOfSimulationList s) (S i) = Some (t + timeOfSample g) /\
    nth_error (voltagesList s) (S i) = Some (calculateNormalizedVoltage g raw) /\
    nth_error (electromagneticMomentList s) (S i) =
      Some (calculateElectromagneticMoment (constantOfElectromagneticMoment g) v) /\
    nth_error (revolutionsList s) (S i) = Some revolutions /\
    nth_error (adjustmentErrors s) (S i) =
      Some (calculateAdjustmentError (referencedRevolutionsPerMinute g) r).
Proof.
  intros Hg Hn Hs Hi.
  destruct (simulation_sample g n i s Hg Hn Hs Hi) as (before & after & Hsm & Hb & Hext).
  destruct (sample_inv g i before after Hg Hsm)
    as (_ & t & raw & v & r & m & rev & Ht & Hraw & Hv & Hr & Hm & Hrev & Ea).
  assert (Hba : extends before after).
  { destruct Hsm as (_ & El & _). eapply loopBody_extends; eassumption. }
  assert (Hbs : extends before s) by (eapply extends_trans; eassumption).
  destruct Hb as (Lt & _ & Lm & Le & Lv & Lr & _).
  exists before, t, raw, v, r, m, rev.
  split; [apply Hsm|]. split; [assumption|]. split; [assumption|].
  destruct Hbs as (Bt & _ & Bm & _ & Bv & Br & _).
  destruct Hext as (At & _ & Am & Ae & Av & Ar & _).
  rewrite Ea in At, Am, Ae, Av, Ar.
  cbn [timeOfSimulationList electromagneticMomentList adjustmentErrors
       voltagesList revolutionsList] in At, Am, Ae, Av, Ar.
  split; [exact (nth_error_extended _ _ _ _ _ Bt Ht)|].
  split; [assumption|].
  split; [exact (nth_error_extended _ _ _ _ _ Bv Hv)|].
  split; [exact (nth_error_extended _ _ _ _ _ Br Hr)|].
  split; [exact (nth_error_extended _ _ _ _ _ Bm Hm)|].
  split; [assumption|].
  split; [exact (appended_entry _ _ _ _ _ Lt At)|].
  split; [exact (appended_entry _ _ _ _ _ Lv Av)|].
  split; [exact (appended_entry _ _ _ _ _ Lm Am)|].
  split; [exact (appended_entry _ _ _ _ _ Lr Ar)|].
  exact (appended_entry _ _ _ _ _ Le Ae).
Qed.

End Recurrence.

(** ** Real arithmetic *)

Section IdealArithmetic.

Local Open Scope R_scope.

Lemma ideal_isZero_false (b : R) : b <> 0 -> Ideal.isZero b = false.
Proof. intros H. unfold Ideal.isZero. now destruct (Req_dec_T b 0). Qed.

Lemma ideal_ltb_true (a b : R) : a < b -> Ideal.ltb a b = true.
Proof. intros H. unfold Ideal.ltb. now destruct (Rlt_dec a b). Qed.

Lemma ideal_ltb_false (a b : R) : b <= a -> Ideal.ltb a b = false.
Proof. intros H. unfold Ideal.ltb. destruct (Rlt_dec a b); [lra|reflexivity]. Qed.

Lemma ideal_noZeroDivisor (g : Params R) :
  timeOfSample g <> 0 -> momentOfInertia g <> 0 -> noZeroDivisor g = true.
Proof.
  intros HT HJ. unfold noZeroDivisor. cbn.
  assert (Hpi := PI_RGT_0).
  rewrite !ideal_isZero_false by lra. reflexivity.
Qed.

(** On real numbers no addition rounds, the compensation stays at zero
    and [sum] is the sum of the entries: all of them, the first
    included. *)
Lemma ideal_sumLoop (l : list R) (f : R) :
  sumLoop f 0 l = (f + fold_right Rplus 0 l, 0).
Proof.
  revert f. induction l as [|x l IH]; intros f; cbn [sumLoop fold_right].
  - f_equal. lra.
  - cbn [add sub leb abs Ideal.ideal].
    replace (0 + (f - (f + x) + x)) with 0 by ring.
    replace (0 + (x - (f + x) + f)) with 0 by ring.
    destruct (Ideal.leb (Rabs x) (Rabs f)); rewrite IH; f_equal; lra.
Qed.

Lemma ideal_sum (l : list R) : sum l = fold_right Rplus 0 l.
Proof.
  destruct l as [|x l]; [reflexivity|].
  unfold sum. cbn [ofZ add Ideal.ideal]. rewrite ideal_sumLoop.
  cbn [isZero isFinite Ideal.ideal fold_right]. unfold Ideal.isZero.
  destruct (Req_dec_T 0 0) as [_|H]; [|now elim H].
  cbn [negb andb]. lra.
Qed.

(** The clamp on real numbers. *)
Lemma ideal_clamp_bounds (g : Params R) (v : R) :
  Umin g <= Umax g ->
  Umin g <= calculateNormalizedVoltage g v <= Umax g.
Proof.
  intros H. unfold calculateNormalizedVoltage, max, min. cbn [ltb Ideal.ideal].
  unfold Ideal.ltb.
  destruct (Rlt_dec v (Umax g)); destruct (Rlt_dec (Umin g) _); lra.
Qed.

Lemma ideal_clamp_inside (g : Params R) (v : R) :
  Umin g <= v <= Umax g -> calculateNormalizedVoltage g v = v.
Proof.
  intros H. unfold calculateNormalizedVoltage, max, min. cbn [ltb Ideal.ideal].
  unfold Ideal.ltb.
  destruct (Rlt_dec v (Umax g)); destruct (Rlt_dec (Umin g) _); lra.
Qed.

(** Truncation toward zero and the floor give the same number of passes
    of [range], and agree on a non-negative number. *)
Lemma trunc_nonneg (x : R) : 0 <= x -> Ideal.trunc x = Int_part x.
Proof. intros H. unfold Ideal.trunc. destruct (Rlt_dec x 0); [lra|reflexivity]. Qed.

Lemma Int_part_nonneg (x : R) : 0 <= x -> (0 <= Int_part x)%Z.
Proof.
  intros H. destruct (base_Int_part x) as [_ H2].
  assert (H3 : -1 < IZR (Int_part x)) by lra.
  apply lt_IZR in H3. lia.
Qed.

Lemma Int_part_neg (x : R) : x < 0 -> (Int_part x < 0)%Z.
Proof.
  intros H. destruct (base_Int_part x) as [H1 _].
  apply lt_IZR. lra.
Qed.

Lemma to_nat_trunc (x : R) : Z.to_nat (Ideal.trunc x) = Z.to_nat (Int_part x).
Proof.
  unfold Ideal.trunc. destruct (Rlt_dec x 0) as [H|H]; [|reflexivity].
  assert (H1 := Int_part_neg x H).
  assert (H2 := Int_part_nonneg (- x) ltac:(lra)). lia.
Qed.

Lemma ideal_iterationCount (g : Params R) :
  timeOfSample g <> 0 ->
  iterationCount g =
    Ok (Z.to_nat (Int_part (timeOfSimulation g / timeOfSample g))).
Proof.
  intros HT. unfold iterationCount, truediv. cbn [isZero div int_ Ideal.ideal].
  rewrite ideal_isZero_false by assumption. cbn [bind].
  now rewrite to_nat_trunc.
Qed.

Lemma ideal_calculateRevolutions (g : Params R) (r m : R) :
  timeOfSample g <> 0 -> momentOfInertia g <> 0 ->
  calculateRevolutions g r m =
    Ok ((r * (2 * PI / 60)
         + timeOfSample g * ((m - loadMoment g - brakingMoment g) / momentOfInertia g))
        * (60 / (2 * PI))).
Proof.
  intros HT HJ.
  rewrite (calculateRevolutions_Ok g r m (ideal_noZeroDivisor g HT HJ)).
  reflexivity.
Qed.

Lemma PI_bounds : 3.1415 < PI < 3.1417.
Proof.
  destruct (PI_2_3_7_ineq 2) as [Hlo Hhi].
  unfold sum_f_R0, tg_alt, PI_2_3_7_tg, Ratan_seq in Hlo, Hhi.
  cbn [Nat.mul Nat.add pow] in Hlo, Hhi.
  repeat rewrite ?S_INR, ?INR_0 in *.
  cbn [INR] in *.
  split; lra.
Qed.

End IdealArithmetic.

(** ** The control law, the clamp and the run on real numbers *)

Section IdealRun.

Local Open Scope R_scope.

(** The control law on real numbers, at an index inside the history. *)
Lemma ideal_control_law (g : Params R) (errorHistory : list R) (i : nat) :
  (i < length errorHistory)%nat -> timeOfSample g <> 0 ->
  calculateVoltageOfRegulator g errorHistory i =
    Ok (Kp g * nth i errorHistory 0
        + Ki g * timeOfSample g * fold_right Rplus 0 errorHistory
        + match i with
          | O => 0
          | S j => Kd g * (nth i errorHistory 0 - nth j errorHistory 0)
                   / timeOfSample g
          end).
Proof.
  intros Hi HT. unfold calculateVoltageOfRegulator.
  rewrite (getitem_Ok _ _ _ _ (nth_error_nth' errorHistory 0 Hi)). cbn [bind].
  rewrite ideal_sum.
  destruct i as [|j].
  - cbn [Nat.ltb Nat.leb bind]. f_equal. cbn [add mul ofZ Ideal.ideal]. lra.
  - change (0 <? S j)%nat with true. cbv iota. cbn [bind].
    replace (S j - 1)%nat with j by lia.
    assert (Hj : (j < length errorHistory)%nat) by lia.
    rewrite (getitem_Ok _ _ _ _ (nth_error_nth' errorHistory 0 Hj)). cbn [bind].
    unfold truediv. cbn [isZero Ideal.ideal].
    rewrite ideal_isZero_false by lra. cbn [bind]. f_equal.
    cbn [add sub mul div Ideal.ideal]. field. lra.
Qed.

Lemma ideal_convertToRevolutionsPerMinute (w : R) :
  convertToRevolutionsPerMinute w = Ok (w * (60 / (2 * PI))).
Proof.
  unfold convertToRevolutionsPerMinute, truediv. cbn [isZero mul ofZ pi Ideal.ideal].
  assert (Hpi := PI_RGT_0).
  rewrite ideal_isZero_false by lra. reflexivity.
Qed.

Lemma ideal_convertToAngularVelocity (v : R) :
  convertToAngularVelocity v = Ok (v * (2 * PI / 60)).
Proof.
  unfold convertToAngularVelocity, truediv. cbn [isZero mul ofZ pi Ideal.ideal].
  rewrite ideal_isZero_false by lra. reflexivity.
Qed.

(** On real numbers a run completes as soon as the sample period and the
    moment of inertia are not zero; its iteration count is the floor of
    the quotient of the two times (no pass when the quotient is
    negative). *)
Lemma ideal_simulation (g : Params R) :
  timeOfSample g <> 0 -> momentOfInertia g <> 0 ->
  exists s,
    noZeroDivisor g = true /\
    iterationCount g =
      Ok (Z.to_nat (Int_part (timeOfSimulation g / timeOfSample g))) /\
    simulation g = Ok s /\
    allLength s (S (Z.to_nat (Int_part (timeOfSimulation g / timeOfSample g)))).
Proof.
  intros HT HJ.
  assert (Hg := ideal_noZeroDivisor g HT HJ).
  assert (Hn := ideal_iterationCount g HT).
  destruct (simulation_Ok g _ Hg Hn) as (s & Hs & Hlen).
  exists s. split; [assumption|]. split; [assumption|]. split; assumption.
Qed.



(** C5 (saturation bound).  With [Umin <= Umax], every entry that a
    sample appends to the voltage list is the clamp of the raw regulator
    voltage and lies in [[Umin, Umax]]; the seed [0.0] at index 0 lies
    there too when [Umin <= 0 <= Umax], and then every entry does. *)
Theorem saturation_bound (g : Params R) :
  timeOfSample g <> 0 -> momentOfInertia g <> 0 -> Umin g <= Umax g ->
  exists n s,
    iterationCount g = Ok n /\ simulation g = Ok s /\
    length (voltagesList s) = S n /\
    nth_error (voltagesList s) 0 = Some 0 /\
    (forall i, (i < n)%nat ->
       exists before raw,
         seriesAfter g i = Ok before /\
         calculateVoltageOfRegulator g (adjustmentErrors before) i = Ok raw /\
         nth_error (voltagesList s) (S i) =
           Some (calculateNormalizedVoltage g raw)) /\
    (forall i v, (1 <= i)%nat -> nth_error (voltagesList s) i = Some v ->
       Umin g <= v <= Umax g) /\
    (Umin g <= 0 <= Umax g ->
     forall i v, nth_error (voltagesList s) i = Some v ->
       Umin g <= v <= Umax g).
Proof.
  intros HT HJ HU.
  destruct (ideal_simulation g HT HJ) as (s & Hg & Hn & Hs & Hlen).
  set (n := Z.to_nat (Int_part (timeOfSimulation g / timeOfSample g))) in *.
  exists n, s.
  destruct (simulation_seeds g n s Hg Hn Hs) as (_ & _ & _ & Hv0 & _).
  assert (Hstep : forall i, (i < n)%nat ->
            exists before raw,
              seriesAfter g i = Ok before /\
              calculateVoltageOfRegulator g (adjustmentErrors before) i = Ok raw /\
              nth_error (voltagesList s) (S i) =
                Some (calculateNormalizedVoltage g raw)).
  { intros i Hi.
    destruct (simulation_entries g n s i Hg Hn Hs Hi)
      as (before & t & raw & v & r & m & rev & Eb & _ & _ & _ & Hraw & _ & _ & _ & _
          & _ & Hv & _).
    exists before, raw. repeat split; assumption. }
  assert (Hpos : forall i v, (1 <= i)%nat -> nth_error (voltagesList s) i = Some v ->
            Umin g <= v <= Umax g).
  { intros [|i] v Hi Hv; [lia|].
    assert (Hin : (S i < length (voltagesList s))%nat).
    { apply nth_error_Some. congruence. }
    destruct Hlen as (_ & _ & _ & _ & Hlv & _). rewrite Hlv in Hin.
    destruct (Hstep i ltac:(lia)) as (before & raw & _ & _ & Hv').
    rewrite Hv' in Hv. apply Some_eq_inv in Hv. subst v.
    now apply ideal_clamp_bounds. }
  split; [assumption|]. split; [assumption|].
  split; [apply Hlen|]. split; [exact Hv0|].
  split; [exact Hstep|]. split; [exact Hpos|].
  intros H0 [|i] v Hv.
  - rewrite Hv0 in Hv. apply Some_eq_inv in Hv. subst v. exact H0.
  - apply (Hpos (S i)); [lia|assumption].
Qed.

Lemma saturation_bound_witness :
  timeOfSample Ideal.sliderDefaults <> 0 /\
  momentOfInertia Ideal.sliderDefaults <> 0 /\
  Umin Ideal.sliderDefaults <= Umax Ideal.sliderDefaults /\
  exists n s,
    iterationCount Ideal.sliderDefaults = Ok n /\
    simulation Ideal.sliderDefaults = Ok s /\
    length (voltagesList s) = S n.
Proof.
  assert (HT : timeOfSample Ideal.sliderDefaults <> 0) by (cbn; lra).
  assert (HJ : momentOfInertia Ideal.sliderDefaults <> 0) by (cbn; lra).
  assert (HU : Umin Ideal.sliderDefaults <= Umax Ideal.sliderDefaults) by (cbn; lra).
  split; [exact HT|]. split; [exact HJ|]. split; [exact HU|].
  destruct (saturation_bound Ideal.sliderDefaults HT HJ HU)
    as (n & s & Hn & Hs & Hlen & _).
  exists n, s. split; [exact Hn|]. split; [exact Hs|exact Hlen].
Defined.

Lemma Int_part_1000_by_tenth : Int_part (1000 / 0.1) = 10000%Z.
Proof. symmetry. apply Int_part_spec. split; lra. Qed.

(** C6 (series lengths).  Every pass of the loop appends one entry to
    each of the seven lists, which hold [i + 1] entries each before sample
    [i] and [i + 2] after it; a run leaves [iterationCount + 1] entries in
    each, where [iterationCount] is the floor of
    [timeOfSimulation / timeOfSample], which is 10001 entries for 1000 and
    0.1. *)
Theorem series_length_invariant (g : Params R) :
  timeOfSample g <> 0 -> momentOfInertia g <> 0 ->
  exists n s,
    iterationCount g = Ok n /\
    n = Z.to_nat (Int_part (timeOfSimulation g / timeOfSample g)) /\
    simulation g = Ok s /\
    allLength s (S n) /\
    (forall i, (i < n)%nat ->
       exists before after,
         sample g i before after /\
         allLength before (S i) /\ allLength after (S (S i))) /\
    (timeOfSimulation g = 1000 -> timeOfSample g = 0.1 ->
     allLength s (Z.to_nat 10001)).
Proof.
  intros HT HJ.
  destruct (ideal_simulation g HT HJ) as (s & Hg & Hn & Hs & Hlen).
  exists (Z.to_nat (Int_part (timeOfSimulation g / timeOfSample g))), s.
  split; [assumption|]. split; [reflexivity|].
  split; [assumption|]. split; [assumption|]. split.
  - intros i _. now apply sample_exists.
  - intros E1 E2. rewrite E1, E2, Int_part_1000_by_tenth in Hlen.
    replace (Z.to_nat 10001) with (S (Z.to_nat 10000)) by lia. exact Hlen.
Qed.

Lemma series_length_invariant_witness :
  timeOfSample Ideal.sliderDefaults <> 0 /\
  momentOfInertia Ideal.sliderDefaults <> 0 /\
  exists s,
    simulation Ideal.sliderDefaults = Ok s /\ allLength s (Z.to_nat 10001).
Proof.
  assert (HT : timeOfSample Ideal.sliderDefaults <> 0) by (cbn; lra).
  assert (HJ : momentOfInertia Ideal.sliderDefaults <> 0) by (cbn; lra).
  split; [exact HT|]. split; [exact HJ|].
  destruct (series_length_invariant Ideal.sliderDefaults HT HJ)
    as (n & s & _ & _ & Hs & _ & _ & H).
  exists s. split; [exact Hs|]. apply H; reflexivity.
Defined.

Lemma ideal_sliderDefaults_iterationCount :
  iterationCount Ideal.sliderDefaults = Ok (Z.to_nat 10000).
Proof.
  rewrite ideal_iterationCount by (cbn; lra).
  change (timeOfSimulation Ideal.sliderDefaults) with 1000.
  change (timeOfSample Ideal.sliderDefaults) with 0.1.
  now rewrite Int_part_1000_by_tenth.
Qed.

(** C4 (worked scenario).  With the sliders' initial values (target 3000,
    load 1, braking 0.2, inertia 1.2, gain 0.4, Kp 0.007, Ki 0.00013,
    Kd 0.0015, bounds 0 and 24, period 0.1) sample 0 computes the raw
    voltage 21.039, which the clamp leaves unchanged, the torque
    [0.4 * 0 = 0] from the seed voltage, the angular velocity -0.1 and the
    speed [-0.1 * 60 / (2 pi)], within 0.0001 of -0.9549, and appends the
    error [3000 - 0 = 3000], computed from the seed speed. *)
Theorem worked_scenario_sample0 :
  Ideal.sliderDefaults =
    {| referencedRevolutionsPerMinute := 3000; timeOfSimulation := 1000;
       timeOfSample := 0.1; brakingMoment := 0.2; loadMoment := 1;
       momentOfInertia := 1.2; constantOfElectromagneticMoment := 0.4;
       Kp := 0.007; Ki := 0.00013; Kd := 0.0015; Umax := 24; Umin := 0 |} /\
  calculateVoltageOfRegulator Ideal.sliderDefaults [3000] 0 = Ok 21.039 /\
  0.007 * 3000 + 0.00013 * 0.1 * 3000 + 0 = 21.039 /\
  calculateNormalizedVoltage Ideal.sliderDefaults 21.039 = 21.039 /\
  calculateElectromagneticMoment 0.4 0 = 0 /\
  0 + 0.1 * ((0 - 1 - 0.2) / 1.2) = -0.1 /\
  calculateRevolutions Ideal.sliderDefaults 0 0 = Ok (-0.1 * (60 / (2 * PI))) /\
  Rabs (-0.1 * (60 / (2 * PI)) - -0.9549) < 0.0001 /\
  calculateAdjustmentError 3000 0 = 3000 /\
  exists s,
    simulation Ideal.sliderDefaults = Ok s /\
    nth_error (adjustmentErrors s) 0 = Some 3000 /\
    nth_error (voltagesList s) 0 = Some 0 /\
    nth_error (revolutionsList s) 0 = Some 0 /\
    nth_error (voltagesList s) 1 = Some 21.039 /\
    nth_error (electromagneticMomentList s) 1 = Some 0 /\
    nth_error (revolutionsList s) 1 = Some (-0.1 * (60 / (2 * PI))) /\
    nth_error (adjustmentErrors s) 1 = Some 3000.
Proof.
  assert (HT : timeOfSample Ideal.sliderDefaults <> 0) by (cbn; lra).
  assert (HJ : momentOfInertia Ideal.sliderDefaults <> 0) by (cbn; lra).
  assert (Hpi := PI_bounds).
  assert (Hraw : calculateVoltageOfRegulator Ideal.sliderDefaults [3000] 0 = Ok 21.039).
  { rewrite ideal_control_law; [|cbn; lia|assumption]. f_equal. cbn. lra. }
  assert (Hclamp : calculateNormalizedVoltage Ideal.sliderDefaults 21.039 = 21.039).
  { apply ideal_clamp_inside. cbn. lra. }
  assert (Hrev : calculateRevolutions Ideal.sliderDefaults 0 0 =
                 Ok (-0.1 * (60 / (2 * PI)))).
  { rewrite ideal_calculateRevolutions by assumption. f_equal. cbn. lra. }
  split; [reflexivity|]. split; [exact Hraw|]. split; [lra|].
  split; [exact Hclamp|].
  split; [unfold calculateElectromagneticMoment; cbn; lra|].
  split; [lra|]. split; [exact Hrev|]. split.
  { assert (Hk : 60 / (2 * PI) = 30 * / PI) by (field; lra).
    rewrite Hk.
    assert (H1 : / 3.1417 < / PI) by (apply Rinv_lt_contravar; nra).
    assert (H2 : / PI < / 3.1415) by (apply Rinv_lt_contravar; nra).
    apply Rabs_def1; lra. }
  split; [unfold calculateAdjustmentError; cbn; lra|].
  destruct (ideal_simulation _ HT HJ) as (s & Hg & _ & Hs & _).
  assert (Hn := ideal_sliderDefaults_iterationCount).
  destruct (simulation_seeds _ _ s Hg Hn Hs) as (_ & Hm0 & He0 & Hv0 & Hr0).
  destruct (simulation_entries _ _ s 0 Hg Hn Hs ltac:(lia))
    as (before & t & raw & v & r & m & rev & Eb & _ & _ & _ & Hraw' & Hv & Hr & Hm
        & Hrev' & _ & Hv1 & Hm1 & Hr1 & He1).
  unfold seriesAfter in Eb. cbn [forRange] in Eb. injection Eb as <-.
  change (adjustmentErrors (initialSeries Ideal.sliderDefaults)) with [3000] in Hraw'.
  rewrite Hraw in Hraw'. injection Hraw' as <-.
  rewrite Hv0 in Hv. apply Some_eq_inv in Hv. subst v.
  rewrite Hr0 in Hr. apply Some_eq_inv in Hr. subst r.
  rewrite Hm0 in Hm. apply Some_eq_inv in Hm. subst m.
  change (ofZ 0) with 0 in *.
  rewrite Hrev in Hrev'. injection Hrev' as <-.
  exists s. split; [exact Hs|]. split; [exact He0|]. split; [exact Hv0|].
  split; [exact Hr0|]. split; [now rewrite Hv1, Hclamp|].
  split.
  { rewrite Hm1. f_equal. unfold calculateElectromagneticMoment. cbn. lra. }
  split; [exact Hr1|].
  rewrite He1. f_equal. unfold calculateAdjustmentError. cbn. lra.
Qed.

(** With the three gains at zero the raw voltage is zero. *)
Lemma ideal_zero_gain_voltage (g : Params R) (errorHistory : list R) (i : nat) :
  (i < length errorHistory)%nat -> timeOfSample g <> 0 ->
  Kp g = 0 -> Ki g = 0 -> Kd g = 0 ->
  calculateVoltageOfRegulator g errorHistory i = Ok 0.
Proof.
  intros Hi HT Hp Hi' Hd.
  rewrite ideal_control_law by assumption. rewrite Hp, Hi', Hd. f_equal.
  destruct i; unfold Rdiv; ring.
Qed.

(** Zero gains in exact arithmetic.  On real numbers, with
    [Kp = Ki = Kd = 0] and [Umin <= 0 <= Umax], every entry of the voltage
    list and of the torque list is [0], and the speed is linear in time:
    entry [i] of the time
    list is [i * T] and entry [i] of the speed list is [i * step], where
    [step] is the angular increment [T * (- load - braking) / inertia]
    converted to revolutions per minute; each sample adds that increment
    to the angular velocity, and the speed decreases when the period, the
    inertia and the sum of the two torques are positive. *)
Lemma zero_gain_decay (g : Params R) :
  timeOfSample g <> 0 -> momentOfInertia g <> 0 ->
  Kp g = 0 -> Ki g = 0 -> Kd g = 0 -> Umin g <= 0 <= Umax g ->
  exists n s step,
    iterationCount g = Ok n /\ simulation g = Ok s /\
    convertToRevolutionsPerMinute
      (timeOfSample g * ((- loadMoment g - brakingMoment g) / momentOfInertia g))
      = Ok step /\
    (forall i, (i <= n)%nat ->
       nth_error (voltagesList s) i = Some 0 /\
       nth_error (electromagneticMomentList s) i = Some 0 /\
       nth_error (timeOfSimulationList s) i = Some (INR i * timeOfSample g) /\
       nth_error (revolutionsList s) i = Some (INR i * step)) /\
    (forall i r r', (i < n)%nat ->
       nth_error (revolutionsList s) i = Some r ->
       nth_error (revolutionsList s) (S i) = Some r' ->
       r' - r = step /\
       exists w w',
         convertToAngularVelocity r = Ok w /\
         convertToAngularVelocity r' = Ok w' /\
         w' = w + timeOfSample g
                  * ((- loadMoment g - brakingMoment g) / momentOfInertia g)) /\
    (0 < timeOfSample g -> 0 < momentOfInertia g ->
     0 < loadMoment g + brakingMoment g -> step < 0).
Proof.
  intros HT HJ Hp Hi Hd HU.
  destruct (ideal_simulation g HT HJ) as (s & Hg & Hn & Hs & Hlen).
  set (n := Z.to_nat (Int_part (timeOfSimulation g / timeOfSample g))) in *.
  set (inc := timeOfSample g * ((- loadMoment g - brakingMoment g) / momentOfInertia g)).
  assert (Hpi := PI_RGT_0).
  exists n, s, (inc * (60 / (2 * PI))).
  split; [assumption|]. split; [assumption|].
  split; [apply ideal_convertToRevolutionsPerMinute|].
  assert (Hall : forall i, (i <= n)%nat ->
            nth_error (voltagesList s) i = Some 0 /\
            nth_error (electromagneticMomentList s) i = Some 0 /\
            nth_error (timeOfSimulationList s) i = Some (INR i * timeOfSample g) /\
            nth_error (revolutionsList s) i = Some (INR i * (inc * (60 / (2 * PI))))).
  { induction i as [|i IH]; intros Hle.
    - destruct (simulation_seeds g n s Hg Hn Hs) as (Ht0 & Hm0 & _ & Hv0 & Hr0).
      change (ofZ 0) with 0 in *. cbn [INR]. rewrite !Rmult_0_l.
      repeat split; assumption.
    - destruct (IH ltac:(lia)) as (Hv & Hm & Ht & Hr).
      destruct (simulation_entries g n s i Hg Hn Hs ltac:(lia))
        as (before & t & raw & v & r & m & rev & _ & Hbl & _ & Ht' & Hraw & Hv' & Hr'
            & Hm' & Hrev & Ht1 & Hv1 & Hm1 & Hr1 & _).
      rewrite Ht in Ht'. apply Some_eq_inv in Ht'. subst t.
      rewrite Hv in Hv'. apply Some_eq_inv in Hv'. subst v.
      rewrite Hr in Hr'. apply Some_eq_inv in Hr'. subst r.
      rewrite Hm in Hm'. apply Some_eq_inv in Hm'. subst m.
      rewrite ideal_zero_gain_voltage in Hraw by (assumption || lia).
      injection Hraw as <-.
      rewrite ideal_calculateRevolutions in Hrev by assumption.
      injection Hrev as <-.
      rewrite Hv1, Hm1, Ht1, Hr1. rewrite S_INR.
      repeat split; f_equal.
      + apply ideal_clamp_inside. lra.
      + unfold calculateElectromagneticMoment. cbn [mul Ideal.ideal]. ring.
      + cbn [add Ideal.ideal]. ring.
      + unfold inc. field. lra. }
  split; [exact Hall|]. split.
  - intros i r r' Hlt Hr Hr'.
    destruct (Hall i ltac:(lia)) as (_ & _ & _ & Hri).
    destruct (Hall (S i) ltac:(lia)) as (_ & _ & _ & Hri').
    rewrite Hri in Hr. apply Some_eq_inv in Hr. subst r.
    rewrite Hri' in Hr'. apply Some_eq_inv in Hr'. subst r'.
    rewrite S_INR. split; [ring|].
    eexists. eexists.
    split; [apply ideal_convertToAngularVelocity|].
    split; [apply ideal_convertToAngularVelocity|].
    fold inc. field. lra.
  - intros H1 H2 H3.
    assert (Hinc : inc < 0).
    { unfold inc.
      assert (Hq : (- loadMoment g - brakingMoment g) / momentOfInertia g < 0).
      { unfold Rdiv. apply Rmult_neg_pos; [lra|]. now apply Rinv_0_lt_compat. }
      nra. }
    assert (Hk : 0 < 60 / (2 * PI)) by (apply Rdiv_lt_0_compat; lra).
    nra.
Qed.

Lemma zero_gain_decay_witness :
  timeOfSample Ideal.zeroGains <> 0 /\ momentOfInertia Ideal.zeroGains <> 0 /\
  Kp Ideal.zeroGains = 0 /\ Ki Ideal.zeroGains = 0 /\ Kd Ideal.zeroGains = 0 /\
  Umin Ideal.zeroGains <= 0 <= Umax Ideal.zeroGains /\
  exists s,
    simulation Ideal.zeroGains = Ok s /\
    nth_error (voltagesList s) 1 = Some 0 /\
    nth_error (electromagneticMomentList s) 1 = Some 0.
Proof.
  set (g := Ideal.zeroGains).
  assert (HT : timeOfSample g <> 0) by (cbn; lra).
  assert (HJ : momentOfInertia g <> 0) by (cbn; lra).
  assert (HU : Umin g <= 0 <= Umax g) by (cbn; lra).
  split; [exact HT|]. split; [exact HJ|].
  split; [reflexivity|]. split; [reflexivity|]. split; [reflexivity|].
  split; [exact HU|].
  destruct (zero_gain_decay g HT HJ eq_refl eq_refl eq_refl HU)
    as (n & s & step & Hn & Hs & _ & Hall & _).
  assert (E : n = Z.to_nat 10000).
  { assert (Hn' : iterationCount g = Ok (Z.to_nat 10000)).
    { rewrite ideal_iterationCount by exact HT.
      change (timeOfSimulation g) with 1000.
      change (timeOfSample g) with 0.1.
      now rewrite Int_part_1000_by_tenth. }
    rewrite Hn in Hn'. now injection Hn'. }
  exists s. split; [exact Hs|].
  destruct (Hall 1%nat ltac:(lia)) as (Hv & Hm & _).
  split; assumption.
Defined.

End IdealRun.

(** ** Non-finite values *)

Section Divergence.

Context {F : Type} {PF : PyFloat F}.
Local Open Scope py_scope.

(** The clamp returns one of the two bounds, or its argument when the
    comparisons place it strictly between them; a NaN, which compares
    false with everything, is replaced by a bound. *)
Lemma clamp_cases (g : Params F) (v : F) :
  calculateNormalizedVoltage g v = Umin g \/
  calculateNormalizedVoltage g v = Umax g \/
  (calculateNormalizedVoltage g v = v /\
   (Umin g <? v) = true /\ (v <? Umax g) = true).
Proof.
  unfold calculateNormalizedVoltage, max, min.
  destruct (v <? Umax g) eqn:E1.
  - destruct (Umin g <? v) eqn:E2; [right; right; now repeat split | now left].
  - destruct (Umin g <? Umax g); [right; now left | now left].
Qed.

(** The run has no check for non-finite values and its result has no
    place for a divergence mark, in any arithmetic.  Whatever the
    values, a call whose divisors are not zero and whose iteration count
    is [n] completes: it returns the rebound parameters, the seven lists
    with all [n + 1] entries, and two figures that plot these lists, whose
    only annotation is the target line and whose traces are the five
    fixed ones.  Every voltage a sample stores is a bound or a raw voltage
    that compares strictly between the bounds. *)
Lemma run_has_no_divergence_mark (g : Params F)
    (prevTime prevRevolutions : list F)
    (newLoadMoment newReferencedRPM newKp newKi newKd : F) (n : nat) :
  noZeroDivisor (rebind g newLoadMoment newReferencedRPM newKp newKi newKd) = true ->
  iterationCount (rebind g newLoadMoment newReferencedRPM newKp newKi newKd) = Ok n ->
  exists o,
    updateGraphs g prevTime prevRevolutions
      newLoadMoment newReferencedRPM newKp newKi newKd = Ok o /\
    params o = rebind g newLoadMoment newReferencedRPM newKp newKi newKd /\
    simulation (params o) = Ok (series o) /\
    allLength (series o) (S n) /\
    figures o = (momentsFigure (params o) (series o),
                 revolutionsFigure (params o) (series o) prevTime prevRevolutions) /\
    annotations o = ["Target RPM"%string] /\
    traceNames o = ["Load Moment"; "Electromagnetic Moment"; "Braking Moment";
                    "Revolutions"; "previousRevolutions"]%string /\
    (forall i v, (1 <= i)%nat ->
       nth_error (voltagesList (series o)) i = Some v ->
       v = Umin (params o) \/ v = Umax (params o) \/
       ((Umin (params o) <? v) = true /\ (v <? Umax (params o)) = true)).
Proof.
  intros Hg Hn.
  set (g' := rebind g newLoadMoment newReferencedRPM newKp newKi newKd) in *.
  destruct (simulation_Ok g' n Hg Hn) as (s & Hs & Hlen).
  eexists. split.
  { unfold updateGraphs. fold g'. rewrite Hs. cbn [bind]. reflexivity. }
  cbn [params series figures].
  split; [reflexivity|]. split; [assumption|]. split; [assumption|].
  split; [reflexivity|]. split; [reflexivity|]. split; [reflexivity|].
  intros [|i] v Hi Hv; [lia|].
  assert (Hin : (S i < length (voltagesList s))%nat).
  { apply nth_error_Some. congruence. }
  destruct Hlen as (_ & _ & _ & _ & Hlv & _). rewrite Hlv in Hin.
  destruct (simulation_entries g' n s i Hg Hn Hs ltac:(lia))
    as (before & t & raw & v0 & r & m & rev & _ & _ & _ & _ & _ & _ & _ & _ & _
        & _ & Hv1 & _).
  rewrite Hv1 in Hv. apply Some_eq_inv in Hv. subst v.
  destruct (clamp_cases g' raw) as [H|[H|(H & H1 & H2)]].
  - now left.
  - right. now left.
  - right. right. rewrite H. now split.
Qed.

End Divergence.

(** ** A run whose speed overflows, in binary64 *)

Lemma binary64_overloaded_samples :
  Binary64.overloadedCheck (seriesAfter Binary64.overloadedParams 30) = true.
Proof. vm_compute. reflexivity. Qed.

Lemma binary64_overloaded_noZeroDivisor :
  noZeroDivisor Binary64.overloadedParams = true.
Proof. vm_compute. reflexivity. Qed.

Lemma binary64_overloaded_iterationCount :
  iterationCount Binary64.overloadedParams = Ok (Z.to_nat 10000).
Proof. vm_compute. reflexivity. Qed.

(** In the run of [Binary64.overloadedCall] the speed computed at sample 2,
    entry 3 of the speed list, is minus infinity, and so are the speeds of
    the samples after it (checked up to entry 30); the call returns all
    the same, with 10001 entries in the speed list, and figures that carry
    the target annotation and the five traces only: nothing on the result
    marks sample 2. *)
Lemma divergence_not_flagged_counterexample :
  exists o v,
    Binary64.overloadedCall = Ok o /\
    nth_error (revolutionsList (series o)) 3 = Some v /\
    PrimFloat.eqb v neg_infinity = true /\
    PrimFloat.is_finite neg_infinity = false /\
    (forall i w, (3 <= i <= 30)%nat ->
       nth_error (revolutionsList (series o)) i = Some w ->
       PrimFloat.eqb w neg_infinity = true) /\
    length (revolutionsList (series o)) = S (Z.to_nat 10000) /\
    annotations o = ["Target RPM"%string] /\
    traceNames o = ["Load Moment"; "Electromagnetic Moment"; "Braking Moment";
                    "Revolutions"; "previousRevolutions"]%string.
Proof.
  assert (H := binary64_overloaded_samples).
  destruct (seriesAfter Binary64.overloadedParams 30) as [s30|e] eqn:E30;
    [|discriminate].
  destruct (simulation_first_samples Binary64.overloadedParams (Z.to_nat 10000) 30 s30
              binary64_overloaded_noZeroDivisor binary64_overloaded_iterationCount
              ltac:(lia) E30)
    as (s & Hs & Hlen & Hext).
  cbn [Binary64.overloadedCheck] in H.
  rewrite !andb_true_iff in H. destruct H as (((Hl & _) & Hinf) & _).
  apply Nat.eqb_eq in Hl.
  destruct Hext as (_ & _ & _ & _ & _ & (rest & Hr) & _).
  assert (Hlate : forall i w, (3 <= i <= 30)%nat ->
            nth_error (revolutionsList s) i = Some w ->
            PrimFloat.eqb w neg_infinity = true).
  { intros i w Hi Hw. rewrite Hr, nth_error_app1 in Hw by lia.
    apply (proj1 (forallb_forall _ _) Hinf).
    replace i with (3 + (i - 3))%nat in Hw by lia.
    rewrite <- nth_error_skipn in Hw. eapply nth_error_In. exact Hw. }
  destruct (nth_error (revolutionsList s) 3) as [v|] eqn:Ev.
  2:{ apply nth_error_None in Ev. rewrite Hr, length_app in Ev. lia. }
  eexists. exists v. split.
  { unfold Binary64.overloadedCall, updateGraphs.
    change (rebind Binary64.moduleParams _ _ _ _ _) with Binary64.overloadedParams.
    rewrite Hs. cbn [bind]. reflexivity. }
  cbn [series].
  split; [exact Ev|]. split; [apply (Hlate 3%nat v); [lia|exact Ev]|].
  split; [reflexivity|]. split; [exact Hlate|].
  split; [apply Hlen|]. split; reflexivity.
Qed.

(** * Further properties of the script *)

(** ** The regulator and the accumulated error, whatever the arithmetic *)

Section Regulator.

Context {F : Type} {PF : PyFloat F}.
Local Open Scope py_scope.

(** X1.  [calculateVoltageOfRegulator] raises [IndexError] exactly when
    the index is not inside the error list, and [ZeroDivisionError]
    exactly when the index is inside, is not [0], and the sample period is
    zero; at index [0] it divides by nothing. *)
Theorem regulator_exceptions (g : Params F) (errorList : list F) (i : nat) :
  (calculateVoltageOfRegulator g errorList i = Raise IndexError
   <-> (length errorList <= i)%nat) /\
  (calculateVoltageOfRegulator g errorList i = Raise ZeroDivisionError
   <-> (0 < i < length errorList)%nat /\ isZero (timeOfSample g) = true) /\
  ((exists raw, calculateVoltageOfRegulator g errorList i = Ok raw)
   <-> (i < length errorList)%nat /\
       (i = 0%nat \/ isZero (timeOfSample g) = false)).
Proof.
  unfold calculateVoltageOfRegulator, getitem.
  destruct (nth_error errorList i) as [e|] eqn:E.
  - assert (Hi : (i < length errorList)%nat).
    { apply nth_error_Some. congruence. }
    cbn [bind]. destruct i as [|j].
    + cbn [Nat.ltb Nat.leb bind].
      split; [split; [discriminate|lia]|].
      split; [split; [discriminate|intros [? _]; lia]|].
      split; [intros _; split; [lia|now left] | intros _; now eexists].
    + change (0 <? S j)%nat with true. cbv iota.
      replace (S j - 1)%nat with j by lia.
      destruct (nth_error errorList j) as [e0|] eqn:E0.
      2:{ apply nth_error_None in E0. lia. }
      cbn [bind]. unfold truediv.
      destruct (isZero (timeOfSample g)); cbn [bind].
      * split; [split; [discriminate|lia]|].
        split; [split; [intros _; split; [lia|reflexivity]|reflexivity]|].
        split; [intros [raw H]; discriminate|].
        intros [_ [H|H]]; discriminate.
      * split; [split; [discriminate|lia]|].
        split; [split; [discriminate|intros [_ H]; discriminate]|].
        split; [intros _; split; [lia|now right] | intros _; now eexists].
  - assert (Hi : (length errorList <= i)%nat) by now apply nth_error_None.
    cbn [bind].
    split; [split; [intros _; assumption|reflexivity]|].
    split; [split; [discriminate|intros [? _]; lia]|].
    split; [intros [raw H]; discriminate | intros [? _]; lia].
Qed.

(** X3.  The plant lags the regulator by two samples: for [i >= 1] the
    speed that sample [i] appends is computed from entry [i] of the speed
    list and from the gain times entry [i - 1] of the voltage list, the
    voltage computed two samples earlier (the seed for [i = 1]); sample
    [0] uses the seed torque. *)
Theorem plant_two_step_lag (g : Params F) (n : nat) :
  noZeroDivisor g = true -> iterationCount g = Ok n ->
  exists s, simulation g = Ok s /\
    (forall revolutions, (0 < n)%nat ->
       calculateRevolutions g (ofZ 0) (ofZ 0) = Ok revolutions ->
       nth_error (revolutionsList s) 1 = Some revolutions) /\
    (forall i, (S i < n)%nat ->
       exists r v revolutions,
         nth_error (revolutionsList s) (S i) = Some r /\
         nth_error (voltagesList s) i = Some v /\
         calculateRevolutions g r (constantOfElectromagneticMoment g * v)
           = Ok revolutions /\
         nth_error (revolutionsList s) (S (S i)) = Some revolutions).
Proof.
  intros Hg Hn.
  destruct (simulation_Ok g n Hg Hn) as (s & Hs & _).
  exists s. split; [assumption|]. split.
  - intros rev Hpos Hrev.
    destruct (simulation_seeds g n s Hg Hn Hs) as (_ & Hm0 & _ & _ & Hr0).
    destruct (simulation_entries g n s 0 Hg Hn Hs Hpos)
      as (before & t & raw & v & r & m & rev' & _ & _ & _ & _ & _ & _ & Hr & Hm
          & Hrev' & _ & _ & _ & Hr1 & _).
    rewrite Hr0 in Hr. injection Hr as <-.
    rewrite Hm0 in Hm. injection Hm as <-.
    rewrite Hrev in Hrev'. injection Hrev' as <-. exact Hr1.
  - intros i Hi.
    destruct (simulation_entries g n s i Hg Hn Hs ltac:(lia))
      as (before & t & raw & v & r & m & rev & _ & _ & _ & _ & _ & Hv & _ & _
          & _ & _ & _ & Hm1 & _ & _).
    destruct (simulation_entries g n s (S i) Hg Hn Hs Hi)
      as (before' & t' & raw' & v' & r' & m' & rev' & _ & _ & _ & _ & _ & _ & Hr'
          & Hm' & Hrev' & _ & _ & _ & Hr1' & _).
    rewrite Hm1 in Hm'. injection Hm' as <-.
    exists r', v, rev'. repeat split; assumption.
Qed.

End Regulator.

(** ** Calls that raise, and calls in a row *)

Section Calls.

Context {F : Type} {PF : PyFloat F}.
Local Open Scope py_scope.

(** The sliders change neither the divisors nor the iteration count. *)
Lemma rebind_noZeroDivisor (g : Params F) (l r p i d : F) :
  noZeroDivisor (rebind g l r p i d) = noZeroDivisor g.
Proof. reflexivity. Qed.

Lemma rebind_iterationCount (g : Params F) (l r p i d : F) :
  iterationCount (rebind g l r p i d) = iterationCount g.
Proof. reflexivity. Qed.

(** X4.  With a zero sample period no call of [updateGraphs] returns: the
    division that counts the iterations raises [ZeroDivisionError],
    whatever the sliders. *)
Theorem zero_sample_period_raises (g : Params F) :
  isZero (timeOfSample g) = true ->
  simulation g = Raise ZeroDivisionError /\
  calculateNumberOfIterations (timeOfSimulation g) (timeOfSample g)
    = Raise ZeroDivisionError /\
  forall prevTime prevRevolutions l r p i d,
    updateGraphs g prevTime prevRevolutions l r p i d = Raise ZeroDivisionError.
Proof.
  intros H.
  assert (Hs : forall g', timeOfSample g' = timeOfSample g ->
                 simulation g' = Raise ZeroDivisionError).
  { intros g' E. unfold simulation, iterationCount, truediv.
    rewrite E, H. reflexivity. }
  split; [now apply Hs|]. split.
  - unfold calculateNumberOfIterations, truediv. now rewrite H.
  - intros. unfold updateGraphs. rewrite Hs; reflexivity.
Qed.

(** X5.  With a zero moment of inertia the first sample raises
    [ZeroDivisionError]; a run of no sample returns the seeds. *)
Theorem zero_inertia_raises (g : Params F) (n : nat) :
  isZero (momentOfInertia g) = true -> iterationCount g = Ok n ->
  (n = 0%nat -> simulation g = Ok (initialSeries g)) /\
  ((0 < n)%nat -> simulation g = Raise ZeroDivisionError).
Proof.
  intros HJ Hn. rewrite (simulation_seriesAfter g n Hn). split.
  - intros ->. reflexivity.
  - intros Hpos. destruct n as [|n]; [lia|].
    unfold seriesAfter. cbn [forRange].
    assert (E : loopBody g 0 (initialSeries g) = Raise ZeroDivisionError).
    { unfold loopBody, calculateVoltageOfRegulator. cbn.
      unfold calculateRevolutions, convertToAngularVelocity, truediv.
      destruct (isZero (ofZ 60)); [reflexivity|]. cbn [bind].
      rewrite HJ. reflexivity. }
    rewrite E. reflexivity.
Qed.

(** X6.  Two calls in a row.  The second call starts from scratch: its
    parameters and its lists are those of the same call made on the module
    as the first call found it.  What it keeps of the first call is the
    dashed trace of the speed figure, which plots the speed list of the
    first call against its time list; the first call plotted the lists it
    was given. *)
Theorem updateGraphs_twice (g : Params F) (prevTime prevRevolutions : list F)
    (l1 r1 p1 i1 d1 l2 r2 p2 i2 d2 : F) (o1 o2 : Outcome F) :
  updateGraphs g prevTime prevRevolutions l1 r1 p1 i1 d1 = Ok o1 ->
  updateGraphs (params o1) (previoustimeOfSimulationList o1)
    (previousrevolutionsList o1) l2 r2 p2 i2 d2 = Ok o2 ->
  (exists o, updateGraphs g prevTime prevRevolutions l2 r2 p2 i2 d2 = Ok o /\
             params o = params o2 /\ series o = series o2 /\
             fst (figures o) = fst (figures o2)) /\
  nth_error (traces (snd (figures o1))) 1 =
    Some {| x := prevTime; y := prevRevolutions; mode := "lines";
            name := "previousRevolutions";
            line := [("color", "gray"); ("dash", "dash")] |}%string /\
  nth_error (traces (snd (figures o2))) 1 =
    Some {| x := timeOfSimulationList (series o1);
            y := revolutionsList (series o1); mode := "lines";
            name := "previousRevolutions";
            line := [("color", "gray"); ("dash", "dash")] |}%string /\
  previoustimeOfSimulationList o2 = timeOfSimulationList (series o2) /\
  previousrevolutionsList o2 = revolutionsList (series o2).
Proof.
  unfold updateGraphs. intros H1 H2.
  destruct (simulation (rebind g l1 r1 p1 i1 d1)) as [s1|e1]; [|discriminate].
  cbn [bind] in H1. injection H1 as <-.
  cbn [params previoustimeOfSimulationList previousrevolutionsList] in H2.
  change (rebind (rebind g l1 r1 p1 i1 d1) l2 r2 p2 i2 d2)
    with (rebind g l2 r2 p2 i2 d2) in H2.
  destruct (simulation (rebind g l2 r2 p2 i2 d2)) as [s2|e2]; [|discriminate].
  cbn [bind] in H2. injection H2 as <-.
  cbn [bind params series figures fst snd previoustimeOfSimulationList
       previousrevolutionsList].
  split.
  { eexists. split; [reflexivity|]. cbn [params series figures fst].
    repeat split. }
  repeat split.
Qed.

End Calls.

(** ** Conversions, clamp and plant on real numbers *)

Section IdealFunctions.

Local Open Scope R_scope.

(** X8.  With [Umin <= Umax] the clamp is the identity between the bounds and
    sticks to the nearer bound outside; it is idempotent and monotone. *)
Theorem clamp_regions (g : Params R) (v : R) :
  Umin g <= Umax g ->
  (v <= Umin g -> calculateNormalizedVoltage g v = Umin g) /\
  (Umin g <= v <= Umax g -> calculateNormalizedVoltage g v = v) /\
  (Umax g <= v -> calculateNormalizedVoltage g v = Umax g) /\
  calculateNormalizedVoltage g (calculateNormalizedVoltage g v)
    = calculateNormalizedVoltage g v /\
  (forall w, v <= w ->
     calculateNormalizedVoltage g v <= calculateNormalizedVoltage g w).
Proof.
  intros HU.
  assert (Hc : forall u,
            (u <= Umin g -> calculateNormalizedVoltage g u = Umin g) /\
            (Umin g <= u <= Umax g -> calculateNormalizedVoltage g u = u) /\
            (Umax g <= u -> calculateNormalizedVoltage g u = Umax g)).
  { intros u. unfold calculateNormalizedVoltage, max, min. cbn [ltb Ideal.ideal].
    unfold Ideal.ltb.
    destruct (Rlt_dec u (Umax g)); destruct (Rlt_dec (Umin g) _);
      repeat split; intros; lra. }
  destruct (Hc v) as (H1 & H2 & H3).
  split; [exact H1|]. split; [exact H2|]. split; [exact H3|]. split.
  - apply ideal_clamp_inside. now apply ideal_clamp_bounds.
  - intros w Hvw. destruct (Hc w) as (W1 & W2 & W3).
    destruct (Rle_lt_dec v (Umin g)) as [Hv|Hv].
    + rewrite H1 by assumption. now apply ideal_clamp_bounds.
    + destruct (Rle_lt_dec (Umax g) v) as [Hv'|Hv'].
      * rewrite H3, W3 by lra. lra.
      * rewrite H2 by lra.
        destruct (Rle_lt_dec (Umax g) w) as [Hw|Hw].
        -- rewrite W3 by lra. lra.
        -- rewrite W2 by lra. lra.
Qed.

Lemma clamp_regions_witness :
  Umin Ideal.sliderDefaults <= Umax Ideal.sliderDefaults /\
  calculateNormalizedVoltage Ideal.sliderDefaults 30 = 24 /\
  calculateNormalizedVoltage Ideal.sliderDefaults (-2) = 0.
Proof.
  assert (HU : Umin Ideal.sliderDefaults <= Umax Ideal.sliderDefaults) by (cbn; lra).
  split; [exact HU|]. split.
  - apply (clamp_regions Ideal.sliderDefaults 30 HU). cbn. lra.
  - apply (clamp_regions Ideal.sliderDefaults (-2) HU). cbn. lra.
Defined.

(** X9.  With the bounds the wrong way round, [Umax < Umin], the clamp returns
    [Umin] whatever the voltage. *)
Theorem clamp_inverted_bounds (g : Params R) (v : R) :
  Umax g < Umin g -> calculateNormalizedVoltage g v = Umin g.
Proof.
  intros HU. unfold calculateNormalizedVoltage, max, min. cbn [ltb Ideal.ideal].
  unfold Ideal.ltb.
  destruct (Rlt_dec v (Umax g)); destruct (Rlt_dec (Umin g) _); lra.
Qed.

Lemma clamp_inverted_bounds_witness :
  Umax Ideal.invertedBounds < Umin Ideal.invertedBounds /\
  calculateNormalizedVoltage Ideal.invertedBounds 12 = 24.
Proof.
  split; [cbn; lra|].
  apply (clamp_inverted_bounds Ideal.invertedBounds 12). cbn. lra.
Defined.

End IdealFunctions.

(** ** Runs on real numbers *)

Section IdealSeries.

Local Open Scope R_scope.





End IdealSeries.

(** ** The clamp in binary64: no NaN and no infinity gets through *)

Section Binary64Clamp.

Lemma SFcompare_refl_finite (s : bool) (m : positive) (e : Z) :
  SFcompare (S754_finite s m e) (S754_finite s m e) = Some Eq.
Proof.
  cbn [SFcompare]. rewrite Z.compare_refl, Pos.compare_cont_refl.
  now destruct s.
Qed.

(** A float that compares strictly between two floats is finite. *)
Lemma float_between_is_finite (lo hi v : float) :
  PrimFloat.ltb lo v = true -> PrimFloat.ltb v hi = true ->
  PrimFloat.is_finite v = true.
Proof.
  rewrite !FloatAxioms.ltb_spec. intros Hlo Hhi.
  unfold is_finite, is_nan, is_infinity.
  rewrite !FloatAxioms.eqb_spec, FloatAxioms.abs_spec.
  change (Prim2SF infinity) with (S754_infinity false).
  unfold SFltb in Hlo, Hhi. unfold SFeqb.
  destruct (Prim2SF v) as [s|s| |s m e].
  - reflexivity.
  - exfalso. destruct s.
    + destruct (Prim2SF lo) as [s1|[|]| |[|] m1 e1]; discriminate.
    + destruct (Prim2SF hi) as [s1|[|]| |[|] m1 e1]; discriminate.
  - exfalso. destruct (Prim2SF lo); discriminate.
  - rewrite SFcompare_refl_finite. reflexivity.
Qed.

Lemma float_ltb_nan (x : float) : PrimFloat.ltb nan x = false.
Proof. rewrite FloatAxioms.ltb_spec. reflexivity. Qed.

(** X15.  Whatever float the regulator returns, a NaN and the two infinities
    included, the clamp returns a finite float as soon as the two bounds
    are finite; a NaN is replaced by [Umax] when [Umin < Umax]. *)
Theorem binary64_clamp_is_finite (g : Params float) (v : float) :
  PrimFloat.is_finite (Umin g) = true -> PrimFloat.is_finite (Umax g) = true ->
  PrimFloat.is_finite (calculateNormalizedVoltage g v) = true /\
  (PrimFloat.ltb (Umin g) (Umax g) = true ->
   calculateNormalizedVoltage g nan = Umax g).
Proof.
  intros Hlo Hhi. split.
  - destruct (clamp_cases g v) as [H|[H|(H & H1 & H2)]].
    + now rewrite H.
    + now rewrite H.
    + rewrite H. exact (float_between_is_finite _ _ _ H1 H2).
  - intros H. unfold calculateNormalizedVoltage, max, min.
    cbn [ltb Binary64.binary64]. rewrite float_ltb_nan, H. reflexivity.
Qed.

Lemma binary64_clamp_is_finite_witness :
  PrimFloat.is_finite (Umin Binary64.moduleParams) = true /\
  PrimFloat.is_finite (Umax Binary64.moduleParams) = true /\
  PrimFloat.is_finite (calculateNormalizedVoltage Binary64.moduleParams infinity)
    = true /\
  calculateNormalizedVoltage Binary64.moduleParams nan = 24%float.
Proof.
  split; [reflexivity|]. split; [reflexivity|].
  destruct (binary64_clamp_is_finite Binary64.moduleParams infinity
              eq_refl eq_refl) as [H1 H2].
  split; [exact H1|]. apply H2. reflexivity.
Defined.

(** X16.  In a binary64 run with finite bounds every entry of the voltage list
    is finite, whatever happens to the speed and to the error. *)
Theorem binary64_voltages_are_finite (g : Params float) (n : nat) :
  PrimFloat.is_finite (Umin g) = true -> PrimFloat.is_finite (Umax g) = true ->
  noZeroDivisor g = true -> iterationCount g = Ok n ->
  exists s, simulation g = Ok s /\
    length (voltagesList s) = S n /\
    forall i v, nth_error (voltagesList s) i = Some v ->
      PrimFloat.is_finite v = true.
Proof.
  intros Hlo Hhi Hg Hn.
  destruct (simulation_Ok g n Hg Hn) as (s & Hs & Hlen).
  exists s. split; [assumption|]. split; [apply Hlen|].
  intros [|i] v Hv.
  - destruct (simulation_seeds g n s Hg Hn Hs) as (_ & _ & _ & Hv0 & _).
    rewrite Hv0 in Hv. apply Some_eq_inv in Hv. subst v. reflexivity.
  - assert (Hin : (S i < length (voltagesList s))%nat).
    { apply nth_error_Some. congruence. }
    destruct Hlen as (_ & _ & _ & _ & Hlv & _). rewrite Hlv in Hin.
    destruct (simulation_entries g n s i Hg Hn Hs ltac:(lia))
      as (before & t & raw & v0 & r & m & rev & _ & _ & _ & _ & _ & _ & _ & _ & _
          & _ & Hv1 & _).
    rewrite Hv1 in Hv. apply Some_eq_inv in Hv. subst v.
    destruct (clamp_cases g raw) as [H|[H|(H & H1 & H2)]].
    + now rewrite H.
    + now rewrite H.
    + rewrite H. exact (float_between_is_finite _ _ _ H1 H2).
Qed.

Lemma binary64_voltages_are_finite_witness :
  PrimFloat.is_finite (Umin Binary64.overloadedParams) = true /\
  PrimFloat.is_finite (Umax Binary64.overloadedParams) = true /\
  noZeroDivisor Binary64.overloadedParams = true /\
  iterationCount Binary64.overloadedParams = Ok (Z.to_nat 10000) /\
  exists s, simulation Binary64.overloadedParams = Ok s /\
    length (voltagesList s) = S (Z.to_nat 10000).
Proof.
  split; [reflexivity|]. split; [reflexivity|].
  split; [exact binary64_overloaded_noZeroDivisor|].
  split; [exact binary64_overloaded_iterationCount|].
  destruct (binary64_voltages_are_finite Binary64.overloadedParams (Z.to_nat 10000)
              eq_refl eq_refl binary64_overloaded_noZeroDivisor
              binary64_overloaded_iterationCount) as (s & Hs & Hlen & _).
  exists s. split; [exact Hs|exact Hlen].
Defined.

End Binary64Clamp.

(** ** Instances of the properties above, in binary64 *)

Lemma plant_two_step_lag_witness :
  noZeroDivisor Binary64.sliderDefaults = true /\
  iterationCount Binary64.sliderDefaults = Ok (Z.to_nat 10000) /\
  exists s r v revolutions,
    simulation Binary64.sliderDefaults = Ok s /\
    nth_error (revolutionsList s) 1 = Some r /\
    nth_error (voltagesList s) 0 = Some v /\
    calculateRevolutions Binary64.sliderDefaults r
      (PrimFloat.mul (constantOfElectromagneticMoment Binary64.sliderDefaults) v)
      = Ok revolutions /\
    nth_error (revolutionsList s) 2 = Some revolutions.
Proof.
  split; [exact binary64_sliderDefaults_noZeroDivisor|].
  split; [exact binary64_sliderDefaults_iterationCount|].
  destruct (plant_two_step_lag Binary64.sliderDefaults (Z.to_nat 10000)
              binary64_sliderDefaults_noZeroDivisor
              binary64_sliderDefaults_iterationCount) as (s & Hs & _ & H).
  destruct (H 0%nat ltac:(lia)) as (r & v & rev & Hr & Hv & Hrev & Hr2).
  exists s, r, v, rev.
  split; [exact Hs|]. split; [exact Hr|]. split; [exact Hv|].
  split; [exact Hrev|exact Hr2].
Defined.

Lemma zero_sample_period_raises_witness :
  isZero (timeOfSample Binary64.zeroPeriod) = true /\
  simulation Binary64.zeroPeriod = Raise ZeroDivisionError.
Proof.
  assert (HT : isZero (timeOfSample Binary64.zeroPeriod) = true)
    by (vm_compute; reflexivity).
  split; [exact HT|].
  exact (proj1 (zero_sample_period_raises Binary64.zeroPeriod HT)).
Defined.

Lemma binary64_zeroInertia_iterationCount :
  iterationCount Binary64.zeroInertia = Ok (Z.to_nat 10000).
Proof. vm_compute. reflexivity. Qed.

Lemma zero_inertia_raises_witness :
  isZero (momentOfInertia Binary64.zeroInertia) = true /\
  iterationCount Binary64.zeroInertia = Ok (Z.to_nat 10000) /\
  simulation Binary64.zeroInertia = Raise ZeroDivisionError.
Proof.
  assert (HJ : isZero (momentOfInertia Binary64.zeroInertia) = true)
    by (vm_compute; reflexivity).
  split; [exact HJ|].
  split; [exact binary64_zeroInertia_iterationCount|].
  apply (proj2 (zero_inertia_raises Binary64.zeroInertia (Z.to_nat 10000)
                  HJ binary64_zeroInertia_iterationCount)).
  lia.
Defined.

Lemma updateGraphs_twice_witness :
  exists o1 o2,
    updateGraphs Binary64.moduleParams [0%float] [0%float] 1%float 3000%float
      0x1.cac083126e979p-8%float 0x1.10a137f38c543p-13%float
      0x1.89374bc6a7efap-10%float = Ok o1 /\
    updateGraphs (params o1) (previoustimeOfSimulationList o1)
      (previousrevolutionsList o1) 0x1.1ccf385ebc8ap+1023%float 3000%float
      0x1.cac083126e979p-8%float 0x1.10a137f38c543p-13%float
      0x1.89374bc6a7efap-10%float = Ok o2 /\
    previousrevolutionsList o2 = revolutionsList (series o2).
Proof.
  destruct (simulation_Ok Binary64.sliderDefaults (Z.to_nat 10000)
              binary64_sliderDefaults_noZeroDivisor
              binary64_sliderDefaults_iterationCount) as (s1 & Hs1 & _).
  destruct (simulation_Ok Binary64.overloadedParams (Z.to_nat 10000)
              binary64_overloaded_noZeroDivisor
              binary64_overloaded_iterationCount) as (s2 & Hs2 & _).
  unfold Binary64.sliderDefaults in Hs1. unfold Binary64.overloadedParams in Hs2.
  assert (H1 : updateGraphs Binary64.moduleParams [0%float] [0%float] 1%float
                 3000%float 0x1.cac083126e979p-8%float
                 0x1.10a137f38c543p-13%float 0x1.89374bc6a7efap-10%float
               = Ok {| params := rebind Binary64.moduleParams 1%float 3000%float
                                   0x1.cac083126e979p-8%float
                                   0x1.10a137f38c543p-13%float
                                   0x1.89374bc6a7efap-10%float;
                       series := s1;
                       previousrevolutionsList := revolutionsList s1;
                       previoustimeOfSimulationList := timeOfSimulationList s1;
                       figures :=
                         (momentsFigure
                            (rebind Binary64.moduleParams 1%float 3000%float
                               0x1.cac083126e979p-8%float
                               0x1.10a137f38c543p-13%float
                               0x1.89374bc6a7efap-10%float) s1,
                          revolutionsFigure
                            (rebind Binary64.moduleParams 1%float 3000%float
                               0x1.cac083126e979p-8%float
                               0x1.10a137f38c543p-13%float
                               0x1.89374bc6a7efap-10%float) s1
                            [0%float] [0%float]) |}).
  { unfold updateGraphs. rewrite Hs1. exact eq_refl. }
  assert (H2 : exists o2,
            updateGraphs
              (rebind Binary64.moduleParams 1%float 3000%float
                 0x1.cac083126e979p-8%float 0x1.10a137f38c543p-13%float
                 0x1.89374bc6a7efap-10%float)
              (timeOfSimulationList s1) (revolutionsList s1)
              0x1.1ccf385ebc8ap+1023%float 3000%float
              0x1.cac083126e979p-8%float 0x1.10a137f38c543p-13%float
              0x1.89374bc6a7efap-10%float = Ok o2).
  { unfold updateGraphs.
    change (rebind (rebind Binary64.moduleParams _ _ _ _ _) ?a ?b ?c ?d ?e)
      with (rebind Binary64.moduleParams a b c d e).
    rewrite Hs2. eexists. exact eq_refl. }
  destruct H2 as (o2 & H2).
  eexists. exists o2. split; [exact H1|]. split; [exact H2|].
  exact (proj2 (proj2 (proj2 (proj2
           (updateGraphs_twice Binary64.moduleParams [0%float] [0%float]
              _ _ _ _ _ _ _ _ _ _ _ o2 H1 H2))))).
Defined.

(** ** The figures a call returns *)

Section Figures.

Context {F : Type} {PF : PyFloat F}.

(** X17.  Every trace of the two figures pairs as many abscissas as ordinates:
    the four traces of the current run hold [n + 1] points each, and the
    dashed trace is well formed as soon as the two [previous...] lists
    have the same length, which the call re-establishes for the next
    one. *)
Theorem traces_are_well_formed (g : Params F) (prevTime prevRevolutions : list F)
    (l r p i d : F) (n : nat) :
  noZeroDivisor g = true -> iterationCount g = Ok n ->
  length prevTime = length prevRevolutions ->
  exists o,
    updateGraphs g prevTime prevRevolutions l r p i d = Ok o /\
    Forall (fun t => length (x t) = length (y t))
      (traces (fst (figures o)) ++ traces (snd (figures o))) /\
    Forall (fun t => length (x t) = S n /\ length (y t) = S n)
      (traces (fst (figures o)) ++ firstn 1 (traces (snd (figures o)))) /\
    length (previoustimeOfSimulationList o) = length (previousrevolutionsList o).
Proof.
  intros Hg Hn Hprev.
  rewrite <- (rebind_noZeroDivisor g l r p i d) in Hg.
  rewrite <- (rebind_iterationCount g l r p i d) in Hn.
  destruct (simulation_Ok _ n Hg Hn) as (s & Hs & Ht & Hl & Hm & _ & _ & Hr & Hb).
  eexists. split.
  { unfold updateGraphs. rewrite Hs. cbn [bind]. reflexivity. }
  cbn [figures fst snd momentsFigure revolutionsFigure traces app firstn
       previoustimeOfSimulationList previousrevolutionsList].
  split; [|split].
  - repeat constructor; cbn [x y]; congruence.
  - repeat constructor; cbn [x y]; congruence.
  - congruence.
Qed.

End Figures.

Lemma traces_are_well_formed_witness :
  noZeroDivisor Binary64.moduleParams = true /\
  iterationCount Binary64.moduleParams = Ok (Z.to_nat 10000) /\
  length [0%float] = length [0%float] /\
  exists o,
    updateGraphs Binary64.moduleParams [0%float] [0%float] 1%float 3000%float
      0x1.cac083126e979p-8%float 0x1.10a137f38c543p-13%float
      0x1.89374bc6a7efap-10%float = Ok o /\
    length (previoustimeOfSimulationList o) = length (previousrevolutionsList o).
Proof.
  split; [exact binary64_sliderDefaults_noZeroDivisor|].
  split; [exact binary64_sliderDefaults_iterationCount|].
  split; [reflexivity|].
  destruct (traces_are_well_formed Binary64.moduleParams [0%float] [0%float]
              1%float 3000%float 0x1.cac083126e979p-8%float
              0x1.10a137f38c543p-13%float 0x1.89374bc6a7efap-10%float
              (Z.to_nat 10000) binary64_sliderDefaults_noZeroDivisor
              binary64_sliderDefaults_iterationCount eq_refl)
    as (o & Ho & _ & _ & Hlen).
  exists o. split; [exact Ho|exact Hlen].
Defined.

(** ** Binary64 facts: zeros, finite and non-finite floats *)

Section Binary64Facts.

(** [is_finite] and the comparison with zero, read on the specification
    of a float. *)
Lemma is_finite_spec (x : float) :
  PrimFloat.is_finite x =
    match Prim2SF x with
    | S754_zero _ | S754_finite _ _ _ => true
    | _ => false
    end.
Proof.
  unfold is_finite, is_nan, is_infinity.
  rewrite !FloatAxioms.eqb_spec, FloatAxioms.abs_spec.
  change (Prim2SF infinity) with (S754_infinity false). unfold SFeqb.
  destruct (Prim2SF x) as [s|s| |s m e].
  - reflexivity.
  - now destruct s.
  - reflexivity.
  - rewrite SFcompare_refl_finite. reflexivity.
Qed.

Lemma eqb_zero_spec (x : float) :
  PrimFloat.eqb x 0 =
    match Prim2SF x with
    | S754_zero _ => true
    | _ => false
    end.
Proof.
  rewrite FloatAxioms.eqb_spec. change (Prim2SF 0) with (S754_zero false).
  destruct (Prim2SF x) as [s|[|]| |[|] m e]; reflexivity.
Qed.

(** A product or a sum with a NaN or an infinity is a NaN or an
    infinity. *)
Lemma mul_not_finite_l (x y : float) :
  PrimFloat.is_finite x = false -> PrimFloat.is_finite (x * y) = false.
Proof.
  rewrite !is_finite_spec, FloatAxioms.mul_spec. unfold SF64mul.
  destruct (Prim2SF x) as [s|s| |s m e]; try discriminate; intros _;
    destruct (Prim2SF y); reflexivity.
Qed.

Lemma add_not_finite_l (x y : float) :
  PrimFloat.is_finite x = false -> PrimFloat.is_finite (x + y) = false.
Proof.
  rewrite !is_finite_spec, FloatAxioms.add_spec. unfold SF64add.
  destruct (Prim2SF x) as [s|s| |s m e]; try discriminate; intros _.
  - destruct (Prim2SF y) as [s'|s'| |s' m' e']; try reflexivity.
    destruct s, s'; reflexivity.
  - destruct (Prim2SF y); reflexivity.
Qed.




Lemma zero_is_finite (x : float) :
  PrimFloat.eqb x 0 = true -> PrimFloat.is_finite x = true.
Proof.
  rewrite eqb_zero_spec, is_finite_spec.
  destruct (Prim2SF x); try discriminate; reflexivity.
Qed.





(** A speed that is not finite gives a speed that is not finite. *)
Lemma binary64_plant_not_finite (g : Params float) (r m : float) :
  noZeroDivisor g = true -> PrimFloat.is_finite r = false ->
  exists revolutions,
    calculateRevolutions g r m = Ok revolutions /\
    PrimFloat.is_finite revolutions = false.
Proof.
  intros Hg Hr. rewrite (calculateRevolutions_Ok g r m Hg).
  eexists. split; [reflexivity|].
  cbn [add mul Binary64.binary64].
  apply mul_not_finite_l, add_not_finite_l, mul_not_finite_l. exact Hr.
Qed.

End Binary64Facts.

(** ** Zero gains in binary64 *)

Section Binary64ZeroGains.


End Binary64ZeroGains.





(** ** A speed that is not finite, in binary64 *)

Section Binary64Divergence.

Lemma sub_not_finite_r (x y : float) :
  PrimFloat.is_finite y = false -> PrimFloat.is_finite (x - y) = false.
Proof.
  rewrite !is_finite_spec, FloatAxioms.sub_spec. unfold SF64sub.
  destruct (Prim2SF y) as [s|s| |s m e]; try discriminate; intros _.
  - destruct (Prim2SF x) as [s'|s'| |s' m' e']; try reflexivity.
    destruct s, s'; reflexivity.
  - destruct (Prim2SF x); reflexivity.
Qed.

Lemma neg_infinity_not_finite (x : float) :
  PrimFloat.eqb x neg_infinity = true -> PrimFloat.is_finite x = false.
Proof.
  rewrite is_finite_spec, FloatAxioms.eqb_spec.
  change (Prim2SF neg_infinity) with (S754_infinity true).
  destruct (Prim2SF x) as [s|[|]| |[|] m e]; try discriminate; reflexivity.
Qed.

(** Once an entry of the speed list is not finite, no later entry is. *)
Lemma binary64_speed_stays_not_finite (g : Params float) (n : nat)
    (s : Series float) (i : nat) (r : float) :
  noZeroDivisor g = true -> iterationCount g = Ok n -> simulation g = Ok s ->
  nth_error (revolutionsList s) i = Some r -> PrimFloat.is_finite r = false ->
  forall k w, nth_error (revolutionsList s) (i + k) = Some w ->
    PrimFloat.is_finite w = false.
Proof.
  intros Hg Hn Hs Hr Hf.
  destruct (simulation_Ok g n Hg Hn) as (s' & Hs' & Hlen).
  assert (Es : s' = s) by congruence. subst s'.
  destruct Hlen as (_ & _ & _ & _ & _ & Hlr & _).
  induction k as [|k IH]; intros w Hw.
  - rewrite Nat.add_0_r in Hw. congruence.
  - rewrite Nat.add_succ_r in Hw.
    assert (Hin : (S (i + k) < length (revolutionsList s))%nat).
    { apply nth_error_Some. congruence. }
    rewrite Hlr in Hin.
    destruct (simulation_entries g n s (i + k) Hg Hn Hs ltac:(lia))
      as (before & t & raw & v & r' & m & rev & _ & _ & _ & _ & _ & _ & Hr' & _
          & Hrev & _ & _ & _ & Hr1 & _).
    rewrite Hr1 in Hw. apply Some_eq_inv in Hw. subst w.
    destruct (binary64_plant_not_finite g r' m Hg (IH r' Hr')) as (rev' & E & Hnf).
    congruence.
Qed.

(** C8, as the code has it.  The run has no check for non-finite values
    and its result has no place for a divergence mark.  A call whose
    divisors are not zero and whose iteration count is [n] completes,
    whatever the values: it returns the rebound parameters, the seven lists
    with all [n + 1] entries, and two figures that plot these lists, whose
    only annotation is the target line and whose traces are the five fixed
    ones.  In binary64 a speed that is not finite is stored like any other
    value, every later entry of the speed list is not finite either, and so
    is the error computed from it.  Every voltage a sample stores is a
    bound or a raw voltage that compares strictly between the bounds, so
    with finite bounds no voltage is ever non-finite. *)
Theorem divergence_propagates_unmarked (g : Params float)
    (prevTime prevRevolutions : list float)
    (newLoadMoment newReferencedRPM newKp newKi newKd : float) (n : nat) :
  noZeroDivisor (rebind g newLoadMoment newReferencedRPM newKp newKi newKd) = true ->
  iterationCount (rebind g newLoadMoment newReferencedRPM newKp newKi newKd) = Ok n ->
  exists o,
    updateGraphs g prevTime prevRevolutions
      newLoadMoment newReferencedRPM newKp newKi newKd = Ok o /\
    params o = rebind g newLoadMoment newReferencedRPM newKp newKi newKd /\
    simulation (params o) = Ok (series o) /\
    allLength (series o) (S n) /\
    figures o = (momentsFigure (params o) (series o),
                 revolutionsFigure (params o) (series o) prevTime prevRevolutions) /\
    annotations o = ["Target RPM"%string] /\
    traceNames o = ["Load Moment"; "Electromagnetic Moment"; "Braking Moment";
                    "Revolutions"; "previousRevolutions"]%string /\
    (forall i k r w,
       nth_error (revolutionsList (series o)) i = Some r ->
       PrimFloat.is_finite r = false ->
       nth_error (revolutionsList (series o)) (i + k) = Some w ->
       PrimFloat.is_finite w = false) /\
    (forall i r, (i < n)%nat ->
       nth_error (revolutionsList (series o)) i = Some r ->
       PrimFloat.is_finite r = false ->
       exists e, nth_error (adjustmentErrors (series o)) (S i) = Some e /\
                 PrimFloat.is_finite e = false) /\
    (forall i v, (1 <= i)%nat ->
       nth_error (voltagesList (series o)) i = Some v ->
       v = Umin (params o) \/ v = Umax (params o) \/
       (PrimFloat.ltb (Umin (params o)) v = true /\
        PrimFloat.ltb v (Umax (params o)) = true)) /\
    (PrimFloat.is_finite (Umin (params o)) = true ->
     PrimFloat.is_finite (Umax (params o)) = true ->
     forall i v, nth_error (voltagesList (series o)) i = Some v ->
       PrimFloat.is_finite v = true).
Proof.
  intros Hg Hn.
  destruct (run_has_no_divergence_mark g prevTime prevRevolutions
              newLoadMoment newReferencedRPM newKp newKi newKd n Hg Hn)
    as (o & Ho & Hp & Hs & Hlen & Hfig & Han & Htr & Hv).
  exists o.
  split; [exact Ho|]. split; [exact Hp|]. split; [exact Hs|].
  split; [exact Hlen|]. split; [exact Hfig|]. split; [exact Han|].
  split; [exact Htr|].
  rewrite <- Hp in Hg, Hn.
  split.
  { intros i k r w Hr Hf Hw.
    exact (binary64_speed_stays_not_finite (params o) n (series o) i r
             Hg Hn Hs Hr Hf k w Hw). }
  split.
  { intros i r Hi Hr Hf.
    destruct (simulation_entries (params o) n (series o) i Hg Hn Hs Hi)
      as (before & t & raw & v & r' & m & rev & _ & _ & _ & _ & _ & _ & Hr' & _
          & _ & _ & _ & _ & _ & He).
    assert (Er : r' = r) by congruence. subst r'.
    eexists. split; [exact He|].
    unfold calculateAdjustmentError. cbn [sub Binary64.binary64].
    now apply sub_not_finite_r. }
  split; [exact Hv|].
  intros Hlo Hhi [|i] v Hiv.
  - destruct (simulation_seeds (params o) n (series o) Hg Hn Hs)
      as (_ & _ & _ & Hv0 & _).
    rewrite Hv0 in Hiv. apply Some_eq_inv in Hiv. subst v. reflexivity.
  - destruct (Hv (S i) v ltac:(lia) Hiv) as [H|[H|(H1 & H2)]].
    + now rewrite H.
    + now rewrite H.
    + exact (float_between_is_finite _ _ _ H1 H2).
Qed.

End Binary64Divergence.

Lemma divergence_propagates_unmarked_witness :
  noZeroDivisor Binary64.overloadedParams = true /\
  iterationCount Binary64.overloadedParams = Ok (Z.to_nat 10000) /\
  exists o w,
    Binary64.overloadedCall = Ok o /\
    allLength (series o) (S (Z.to_nat 10000)) /\
    annotations o = ["Target RPM"%string] /\
    nth_error (revolutionsList (series o)) (Z.to_nat 10000) = Some w /\
    PrimFloat.is_finite w = false.
Proof.
  split; [exact binary64_overloaded_noZeroDivisor|].
  split; [exact binary64_overloaded_iterationCount|].
  destruct (divergence_propagates_unmarked Binary64.moduleParams [0%float] [0%float]
              _ _ _ _ _ (Z.to_nat 10000) binary64_overloaded_noZeroDivisor
              binary64_overloaded_iterationCount)
    as (o & Ho & Hp & Hs & Hlen & _ & Ha & _ & Hprop & _).
  assert (H := binary64_overloaded_samples).
  destruct (seriesAfter Binary64.overloadedParams 30) as [s30|e] eqn:E30;
    [|discriminate].
  destruct (simulation_first_samples Binary64.overloadedParams (Z.to_nat 10000) 30 s30
              binary64_overloaded_noZeroDivisor binary64_overloaded_iterationCount
              ltac:(lia) E30)
    as (s & Hs' & _ & Hext).
  rewrite Hp in Hs.
  change (rebind Binary64.moduleParams _ _ _ _ _) with Binary64.overloadedParams in Hs.
  assert (Es : s = series o) by congruence. subst s.
  cbn [Binary64.overloadedCheck] in H.
  rewrite !andb_true_iff in H. destruct H as (((Hl & _) & Hinf) & _).
  apply Nat.eqb_eq in Hl.
  destruct Hext as (_ & _ & _ & _ & _ & (rest & Hr) & _).
  destruct (nth_error (revolutionsList (series o)) 3) as [v|] eqn:Ev.
  2:{ apply nth_error_None in Ev. rewrite Hr, length_app in Ev. lia. }
  assert (Hv : PrimFloat.eqb v neg_infinity = true).
  { rewrite Hr, nth_error_app1 in Ev by lia.
    apply (proj1 (forallb_forall _ _) Hinf).
    change 3%nat with (3 + 0)%nat in Ev.
    rewrite <- nth_error_skipn in Ev. eapply nth_error_In. exact Ev. }
  assert (Hnf : PrimFloat.is_finite v = false)
    by exact (neg_infinity_not_finite v Hv).
  destruct (nth_error (revolutionsList (series o)) (Z.to_nat 10000)) as [w|] eqn:Ew.
  2:{ apply nth_error_None in Ew. destruct Hlen as (_ & _ & _ & _ & _ & Hlr & _).
      rewrite Hlr in Ew. lia. }
  exists o, w. split; [exact Ho|]. split; [exact Hlen|]. split; [exact Ha|].
  split; [exact Ew|].
  apply (Hprop 3%nat (Z.to_nat 10000 - 3)%nat v w Ev Hnf).
  replace (3 + (Z.to_nat 10000 - 3))%nat with (Z.to_nat 10000) by lia.
  exact Ew.
Defined.

(** ** The helper and the loop count, in binary64 *)

Section Binary64Iterations.








End Binary64Iterations.



(** ** The first two voltages, whatever the arithmetic *)

Section FirstVoltages.

Context {F : Type} {PF : PyFloat F}.
Local Open Scope py_scope.

(** The regulator reads the three gains and the sample period only, and
    the clamp the two bounds only. *)
Lemma regulator_reads_gains_and_period (g g' : Params F) (errorList : list F)
    (i : nat) :
  Kp g = Kp g' -> Ki g = Ki g' -> Kd g = Kd g' ->
  timeOfSample g = timeOfSample g' ->
  calculateVoltageOfRegulator g errorList i
    = calculateVoltageOfRegulator g' errorList i.
Proof.
  intros Hp Hi Hd HT. unfold calculateVoltageOfRegulator.
  rewrite Hp, Hi, Hd, HT. reflexivity.
Qed.

Lemma clamp_reads_bounds (g g' : Params F) (v : F) :
  Umin g = Umin g' -> Umax g = Umax g' ->
  calculateNormalizedVoltage g v = calculateNormalizedVoltage g' v.
Proof.
  intros Hlo Hhi. unfold calculateNormalizedVoltage. now rewrite Hlo, Hhi.
Qed.

(** The error list before sample 1 is the seed and the error of the seed
    speed. *)
Lemma errors_before_sample_1 (g : Params F) (n : nat) (s before : Series F) :
  noZeroDivisor g = true -> iterationCount g = Ok n -> simulation g = Ok s ->
  (1 <= n)%nat -> seriesAfter g 1 = Ok before ->
  adjustmentErrors before =
    [referencedRevolutionsPerMinute g;
     calculateAdjustmentError (referencedRevolutionsPerMinute g) (ofZ 0)].
Proof.
  intros Hg Hn Hs Hle Hb.
  destruct (simulation_seeds g n s Hg Hn Hs) as (_ & _ & He0 & _ & Hr0).
  destruct (simulation_entries g n s 0 Hg Hn Hs ltac:(lia))
    as (b0 & t & raw & v & r & m & rev & _ & _ & _ & _ & _ & _ & Hr & _ & _ & _
        & _ & _ & _ & He1).
  rewrite Hr0 in Hr. apply Some_eq_inv in Hr. subst r.
  destruct (seriesAfter_Ok g 1 Hg) as (b1 & Hb1 & Hlen).
  assert (Eb : b1 = before) by congruence. subst b1.
  destruct Hlen as (_ & _ & _ & Hle2 & _).
  assert (Hext : extends before s).
  { apply (seriesAfter_extends g 1 (n - 1)); [assumption|assumption|].
    replace (1 + (n - 1))%nat with n by lia.
    rewrite <- Hs. symmetry. exact (simulation_seriesAfter g n Hn). }
  destruct Hext as (_ & _ & _ & (l & El) & _).
  rewrite El in He0, He1.
  destruct (adjustmentErrors before) as [|a [|b [|c rest]]];
    cbn [length] in Hle2; try discriminate Hle2.
  cbn [app nth_error] in He0, He1. congruence.
Qed.

(** X18.  The first two stored voltages are the clamps of the regulator's
    outputs on the error lists [[target]] and [[target; target - 0]] (the
    second error is computed from the seed speed 0, not from a computed
    speed).  They are therefore the same in two runs that share the
    target, the gains, the sample period and the bounds, whatever the load
    torque, the braking torque, the inertia, the gain constant and the
    simulation time. *)
Theorem first_two_voltages (g g' : Params F) (n n' : nat) :
  noZeroDivisor g = true -> iterationCount g = Ok n -> (2 <= n)%nat ->
  noZeroDivisor g' = true -> iterationCount g' = Ok n' -> (2 <= n')%nat ->
  referencedRevolutionsPerMinute g = referencedRevolutionsPerMinute g' ->
  Kp g = Kp g' -> Ki g = Ki g' -> Kd g = Kd g' ->
  timeOfSample g = timeOfSample g' ->
  Umin g = Umin g' -> Umax g = Umax g' ->
  exists s s' raw0 raw1,
    simulation g = Ok s /\ simulation g' = Ok s' /\
    calculateVoltageOfRegulator g [referencedRevolutionsPerMinute g] 0 = Ok raw0 /\
    calculateVoltageOfRegulator g
      [referencedRevolutionsPerMinute g;
       calculateAdjustmentError (referencedRevolutionsPerMinute g) (ofZ 0)] 1
      = Ok raw1 /\
    nth_error (voltagesList s) 1 = Some (calculateNormalizedVoltage g raw0) /\
    nth_error (voltagesList s) 2 = Some (calculateNormalizedVoltage g raw1) /\
    nth_error (voltagesList s') 1 = Some (calculateNormalizedVoltage g raw0) /\
    nth_error (voltagesList s') 2 = Some (calculateNormalizedVoltage g raw1).
Proof.
  intros Hg Hn Hle Hg' Hn' Hle' Hr Hp Hi Hd HT Hlo Hhi.
  assert (Hone : forall h k s,
            noZeroDivisor h = true -> iterationCount h = Ok k -> (2 <= k)%nat ->
            simulation h = Ok s ->
            exists raw0 raw1,
              calculateVoltageOfRegulator h [referencedRevolutionsPerMinute h] 0
                = Ok raw0 /\
              calculateVoltageOfRegulator h
                [referencedRevolutionsPerMinute h;
                 calculateAdjustmentError (referencedRevolutionsPerMinute h) (ofZ 0)]
                1 = Ok raw1 /\
              nth_error (voltagesList s) 1
                = Some (calculateNormalizedVoltage h raw0) /\
              nth_error (voltagesList s) 2
                = Some (calculateNormalizedVoltage h raw1)).
  { intros h k s Hh Hk Hk2 Hs.
    destruct (simulation_entries h k s 0 Hh Hk Hs ltac:(lia))
      as (b0 & t0 & raw0 & v0 & r0 & m0 & rev0 & Eb0 & _ & _ & _ & Hraw0 & _ & _
          & _ & _ & _ & Hv1 & _).
    destruct (simulation_entries h k s 1 Hh Hk Hs ltac:(lia))
      as (b1 & t1 & raw1 & v1 & r1 & m1 & rev1 & Eb1 & _ & _ & _ & Hraw1 & _ & _
          & _ & _ & _ & Hv2 & _).
    unfold seriesAfter in Eb0. cbn [forRange] in Eb0.
    assert (E0 : b0 = initialSeries h) by congruence. subst b0.
    cbn [adjustmentErrors initialSeries] in Hraw0.
    rewrite (errors_before_sample_1 h k s b1 Hh Hk Hs ltac:(lia) Eb1) in Hraw1.
    exists raw0, raw1. repeat split; assumption. }
  destruct (simulation_Ok g n Hg Hn) as (s & Hs & _).
  destruct (simulation_Ok g' n' Hg' Hn') as (s' & Hs' & _).
  destruct (Hone g n s Hg Hn Hle Hs) as (raw0 & raw1 & H0 & H1 & Hv1 & Hv2).
  destruct (Hone g' n' s' Hg' Hn' Hle' Hs') as (raw0' & raw1' & H0' & H1' & Hv1' & Hv2').
  rewrite <- Hr in H0', H1'.
  rewrite <- (regulator_reads_gains_and_period g g' _ _ Hp Hi Hd HT) in H0'.
  rewrite <- (regulator_reads_gains_and_period g g' _ _ Hp Hi Hd HT) in H1'.
  assert (E0 : raw0' = raw0) by congruence.
  assert (E1 : raw1' = raw1) by congruence.
  subst raw0' raw1'.
  rewrite <- (clamp_reads_bounds g g' _ Hlo Hhi) in Hv1'.
  rewrite <- (clamp_reads_bounds g g' _ Hlo Hhi) in Hv2'.
  exists s, s', raw0, raw1.
  split; [exact Hs|]. split; [exact Hs'|]. split; [exact H0|]. split; [exact H1|].
  split; [exact Hv1|]. split; [exact Hv2|]. split; [exact Hv1'|exact Hv2'].
Qed.

End FirstVoltages.

Lemma first_two_voltages_witness :
  noZeroDivisor Binary64.sliderDefaults = true /\
  iterationCount Binary64.sliderDefaults = Ok (Z.to_nat 10000) /\
  noZeroDivisor Binary64.overloadedParams = true /\
  iterationCount Binary64.overloadedParams = Ok (Z.to_nat 10000) /\
  exists s s' v1 v2,
    simulation Binary64.sliderDefaults = Ok s /\
    simulation Binary64.overloadedParams = Ok s' /\
    nth_error (voltagesList s) 1 = Some v1 /\
    nth_error (voltagesList s') 1 = Some v1 /\
    nth_error (voltagesList s) 2 = Some v2 /\
    nth_error (voltagesList s') 2 = Some v2.
Proof.
  split; [exact binary64_sliderDefaults_noZeroDivisor|].
  split; [exact binary64_sliderDefaults_iterationCount|].
  split; [exact binary64_overloaded_noZeroDivisor|].
  split; [exact binary64_overloaded_iterationCount|].
  destruct (first_two_voltages Binary64.sliderDefaults Binary64.overloadedParams
              (Z.to_nat 10000) (Z.to_nat 10000)
              binary64_sliderDefaults_noZeroDivisor
              binary64_sliderDefaults_iterationCount ltac:(lia)
              binary64_overloaded_noZeroDivisor
              binary64_overloaded_iterationCount ltac:(lia)
              eq_refl eq_refl eq_refl eq_refl eq_refl eq_refl eq_refl)
    as (s & s' & raw0 & raw1 & Hs & Hs' & _ & _ & H1 & H2 & H1' & H2').
  exists s, s', (calculateNormalizedVoltage Binary64.sliderDefaults raw0),
    (calculateNormalizedVoltage Binary64.sliderDefaults raw1).
  split; [exact Hs|]. split; [exact Hs'|]. split; [exact H1|].
  split; [exact H1'|]. split; [exact H2|exact H2'].
Defined.

(** ** The time axis, whatever the arithmetic *)

Section TimeAxis.

Context {F : Type} {PF : PyFloat F}.
Local Open Scope py_scope.

(** X11.  The time axis is built by repeated addition: it starts at 0 and
    every sample appends the previous entry plus the sample period.  It is
    not computed as index times period, and in binary64 the two differ:
    with the period 0.1, entry 10 is 0.9999999999999999 while 10 * 0.1 is
    1.0. *)
Theorem time_axis (g : Params F) (n : nat) :
  noZeroDivisor g = true -> iterationCount g = Ok n ->
  exists s, simulation g = Ok s /\
    length (timeOfSimulationList s) = S n /\
    nth_error (timeOfSimulationList s) 0 = Some (ofZ 0) /\
    forall i, (i < n)%nat ->
      exists t,
        nth_error (timeOfSimulationList s) i = Some t /\
        nth_error (timeOfSimulationList s) (S i) = Some (t + timeOfSample g).
Proof.
  intros Hg Hn.
  destruct (simulation_Ok g n Hg Hn) as (s & Hs & Hlen).
  exists s. split; [exact Hs|]. split; [apply Hlen|].
  destruct (simulation_seeds g n s Hg Hn Hs) as (Ht0 & _).
  split; [exact Ht0|].
  intros i Hi.
  destruct (simulation_entries g n s i Hg Hn Hs Hi)
    as (before & t & raw & v & r & m & rev & _ & _ & _ & Ht & _ & _ & _ & _ & _
        & Ht1 & _).
  exists t. split; [exact Ht|exact Ht1].
Qed.

End TimeAxis.

Lemma time_axis_witness :
  noZeroDivisor Binary64.sliderDefaults = true /\
  iterationCount Binary64.sliderDefaults = Ok (Z.to_nat 10000) /\
  exists s t,
    simulation Binary64.sliderDefaults = Ok s /\
    nth_error (timeOfSimulationList s) 9 = Some t /\
    nth_error (timeOfSimulationList s) 10
      = Some (t + timeOfSample Binary64.sliderDefaults)%float /\
    nth_error (timeOfSimulationList s) 10 = Some 0x1.fffffffffffffp-1%float /\
    PrimFloat.eqb 0x1.fffffffffffffp-1
      (10 * timeOfSample Binary64.sliderDefaults) = false.
Proof.
  split; [exact binary64_sliderDefaults_noZeroDivisor|].
  split; [exact binary64_sliderDefaults_iterationCount|].
  destruct (time_axis Binary64.sliderDefaults (Z.to_nat 10000)
              binary64_sliderDefaults_noZeroDivisor
              binary64_sliderDefaults_iterationCount) as (s & Hs & _ & _ & H).
  destruct (H 9%nat ltac:(lia)) as (t & Ht & Ht1).
  destruct (seriesAfter Binary64.sliderDefaults 10) as [s10|e] eqn:E10.
  2:{ exfalso. revert E10. vm_compute. discriminate. }
  destruct (simulation_first_samples Binary64.sliderDefaults (Z.to_nat 10000) 10 s10
              binary64_sliderDefaults_noZeroDivisor
              binary64_sliderDefaults_iterationCount ltac:(lia) E10)
    as (s' & Hs' & _ & Hext).
  assert (Es : s' = s) by congruence. subst s'.
  destruct Hext as (Hx & _).
  assert (E : match seriesAfter Binary64.sliderDefaults 10 with
              | Ok s' => nth_error (timeOfSimulationList s') 10
              | Raise _ => None
              end = Some 0x1.fffffffffffffp-1%float) by (vm_compute; reflexivity).
  rewrite E10 in E.
  exists s, t. split; [exact Hs|]. split; [exact Ht|]. split; [exact Ht1|].
  split; [exact (nth_error_extended _ _ _ _ _ Hx E)|].
  vm_compute. reflexivity.
Defined.
